(** * LangChain MCP integration example: a shallow embedding

    The development follows [langchain_mcp_example.py]: the provider
    dispatch [create_llm], the driver [main] and the interpreter entry
    point.  Environment variables are a finite map from names to values,
    Python exceptions are values of [exn], and the driver is written in a
    small state-and-exception monad whose state carries the trace of
    observable events (lines printed, network-bound calls). *)

From Stdlib Require Import ZArith Ascii String List Lia.
From stdpp Require Import base option list strings gmap pretty.

Open Scope string_scope.
Open Scope list_scope.

(** ** Strings as Python uses them *)

Module PyStr.

(** [str.lower] and [str.upper] as they act on strings of ASCII characters:
    a capital letter goes to its small letter by adding 32 to its code, a
    small letter to its capital by subtracting 32, and every other ASCII
    character stays.  Python also maps letters outside ASCII (and may change
    the length of the string there); this model leaves every byte above 127
    as it is, so it speaks for Python on the strings [is_ascii] accepts. *)
Definition is_ascii_char (c : ascii) : bool := (nat_of_ascii c <? 128)%nat.

Fixpoint is_ascii (s : string) : bool :=
  match s with
  | EmptyString => true
  | String c r => is_ascii_char c && is_ascii r
  end.

Definition is_upper (c : ascii) : bool :=
  (65 <=? nat_of_ascii c)%nat && (nat_of_ascii c <=? 90)%nat.

Definition is_lower (c : ascii) : bool :=
  (97 <=? nat_of_ascii c)%nat && (nat_of_ascii c <=? 122)%nat.

Definition lower_char (c : ascii) : ascii :=
  if is_upper c then ascii_of_nat (nat_of_ascii c + 32) else c.

Definition upper_char (c : ascii) : ascii :=
  if is_lower c then ascii_of_nat (nat_of_ascii c - 32) else c.

Fixpoint lower (s : string) : string :=
  match s with
  | EmptyString => EmptyString
  | String c r => String (lower_char c) (lower r)
  end.

Fixpoint upper (s : string) : string :=
  match s with
  | EmptyString => EmptyString
  | String c r => String (upper_char c) (upper r)
  end.

(** [sep.join(parts)] *)
Fixpoint join (sep : string) (parts : list string) : string :=
  match parts with
  | [] => ""
  | [p] => p
  | p :: rest => p +:+ sep +:+ join sep rest
  end.

(** [s * n] *)
Fixpoint repeat (s : string) (n : nat) : string :=
  match n with
  | O => ""
  | S k => s +:+ repeat s k
  end.

(** [sub in s] *)
Fixpoint contains (sub s : string) : bool :=
  String.prefix sub s ||
  match s with
  | EmptyString => false
  | String _ r => contains sub r
  end.

(** The alphabet, written out twice, in capitals and in small letters; the
    table pairs each capital with the small letter at the same place.  The
    notions below are read off this table and owe nothing to [lower_char]
    and [upper_char]. *)
Definition capitals : string := "ABCDEFGHIJKLMNOPQRSTUVWXYZ".
Definition smalls : string := "abcdefghijklmnopqrstuvwxyz".

Definition letters : list (ascii * ascii) :=
  Eval cbv in combine (list_ascii_of_string capitals) (list_ascii_of_string smalls).

(** The small letter of a capital and the capital of a small letter, by
    looking the character up in the table; any other character is itself. *)
Definition small_of (c : ascii) : ascii :=
  match List.find (fun p => Ascii.eqb (fst p) c) letters with
  | Some p => snd p
  | None => c
  end.


(** A string written in small letters, and in capitals. *)
Fixpoint lowercase (s : string) : string :=
  match s with
  | EmptyString => EmptyString
  | String c r => String (small_of c) (lowercase r)
  end.




(** The double-quote character, for string constants that contain it. *)
Definition dq : string := String "034"%char EmptyString.

End PyStr.

(** ** The process environment *)

(** [os.environ] after [load_dotenv()] has run. *)
Abbreviation environ := (gmap string string).

(** [os.getenv(key)] is [env !! key]; [os.getenv(key, default)]: *)
Definition getenv_default (env : environ) (key default : string) : string :=
  match env !! key with
  | Some v => v
  | None => default
  end.

(** Truthiness of an optional string: [None] and [""] are falsy. *)
Definition truthy (v : option string) : bool :=
  match v with
  | Some s => negb (String.eqb s "")
  | None => false
  end.

(** ** Exceptions *)

(** [Exc cls msg] is an instance of the subclass [cls] of [Exception]
    whose [str()] is [msg]; [SystemExit] is what [sys.exit] raises and is
    not a subclass of [Exception]. *)
Inductive exn : Type :=
| Exc (cls : string) (msg : string)
| SystemExit (code : Z).

Definition ValueError (msg : string) : exn := Exc "ValueError" msg.

Definition exn_class (e : exn) : string :=
  match e with
  | Exc cls _ => cls
  | SystemExit _ => "SystemExit"
  end.

Definition exn_str (e : exn) : string :=
  match e with
  | Exc _ msg => msg
  | SystemExit code => pretty code
  end.

(** [isinstance(e, Exception)] *)
Definition is_Exception (e : exn) : bool :=
  match e with
  | Exc _ _ => true
  | SystemExit _ => false
  end.

Inductive outcome (A : Type) : Type :=
| Ok (a : A)
| Raise (e : exn).
Arguments Ok {A} a.
Arguments Raise {A} e.

(** What a library call does: it returns, or it raises an instance of a
    subclass [cls] of [Exception] with message [msg]. *)
Inductive lib_result (A : Type) : Type :=
| Returns (a : A)
| Raises (cls msg : string).
Arguments Returns {A} a.
Arguments Raises {A} cls msg.

Definition outcome_of {A} (r : lib_result A) : outcome A :=
  match r with
  | Returns a => Ok a
  | Raises cls msg => Raise (Exc cls msg)
  end.

(** ** Model handles *)

(** What [create_llm] returns, written as the constructor call that makes
    it: the SDK class and the keyword arguments of lines 40-44, 57-63 and
    70-74.  The constructors themselves are SDK code.  What they derive from
    these arguments, and what they read on their own account (variables of
    the SDK such as [OPENAI_API_BASE]), is not in the script and is not
    represented: a value of [llm] says what the script asks for, not what
    attributes the live object ends up with.  Building one makes no network
    call and is taken not to fail. *)
Inductive llm : Type :=
| ChatOpenAI (model : string) (temperature : Z) (openai_api_key : string)
| AzureChatOpenAI (azure_endpoint azure_deployment api_version api_key : string)
                  (temperature : Z)
| ChatAnthropic (model anthropic_api_key : string) (temperature : Z).

(** The [temperature] keyword argument of the call. *)
Definition temperature_kwarg (h : llm) : Z :=
  match h with
  | ChatOpenAI _ t _ => t
  | AzureChatOpenAI _ _ _ _ t => t
  | ChatAnthropic _ _ t => t
  end.

(** The provider identity whose SDK class the call names. *)
Definition handle_provider (h : llm) : string :=
  match h with
  | ChatOpenAI _ _ _ => "openai"
  | AzureChatOpenAI _ _ _ _ _ => "azure"
  | ChatAnthropic _ _ _ => "claude"
  end.

(** [create_llm(provider)], with the environment it reads made explicit. *)
Definition create_llm (env : environ) (provider : string) : outcome llm :=
  if decide (provider = "openai") then
    let api_key := env !! "OPENAI_API_KEY" in
    if negb (truthy api_key) then
      Raise (ValueError "OPENAI_API_KEY environment variable is required")
    else
      Ok (ChatOpenAI (getenv_default env "OPENAI_MODEL" "gpt-4o-mini")
                     0
                     (default "" api_key))
  else if decide (provider = "azure") then
    let api_key := env !! "AZURE_OPENAI_API_KEY" in
    let endpoint := env !! "AZURE_OPENAI_ENDPOINT" in
    let deployment := env !! "AZURE_OPENAI_DEPLOYMENT_NAME" in
    if negb (forallb truthy [api_key; endpoint; deployment]) then
      Raise (ValueError
               ("AZURE_OPENAI_API_KEY, AZURE_OPENAI_ENDPOINT, and " +:+
                "AZURE_OPENAI_DEPLOYMENT_NAME are required for Azure"))
    else
      Ok (AzureChatOpenAI
            (default "" endpoint)
            (default "" deployment)
            (getenv_default env "AZURE_OPENAI_API_VERSION" "2024-02-15-preview")
            (default "" api_key)
            0)
  else if decide (provider = "claude") then
    let api_key := env !! "ANTHROPIC_API_KEY" in
    if negb (truthy api_key) then
      Raise (ValueError "ANTHROPIC_API_KEY environment variable is required")
    else
      Ok (ChatAnthropic
            (getenv_default env "ANTHROPIC_MODEL" "claude-3-5-sonnet-20241022")
            (default "" api_key)
            0)
  else
    Raise (ValueError
             ("Unknown provider: " +:+ provider +:+
              ". Use 'openai', 'azure', or 'claude'")).

(** ** What the script talks to *)

(** A discovered tool; the script reads only its [name]. *)
Record tool : Type := { tool_name : string }.

(** The argument of [MultiServerMCPClient]: one server entry, keyed "pia". *)
Record client : Type := {
  server : string;
  transport : string;
  url : string;
  headers : list (string * string)
}.

Definition MultiServerMCPClient (mcp_url mcp_api_key : string) : client :=
  {| server := "pia";
     transport := "streamable_http";
     url := mcp_url;
     headers := [("x-api-key", mcp_api_key)] |}.

(** The object [create_agent] returns: its keyword arguments.  Like the
    client and the model handles it is built locally, without a network
    call. *)
Record agent : Type := {
  agent_model : llm;
  agent_tools : list tool;
  agent_system_prompt : string
}.

Definition create_agent (model : llm) (tools : list tool) (system_prompt : string)
  : agent :=
  {| agent_model := model;
     agent_tools := tools;
     agent_system_prompt := system_prompt |}.

(** The first argument of [ainvoke]: [{"messages": [{"role": r, "content": c}]}]
    as the list of its (role, content) pairs; the second argument:
    [{"configurable": {"thread_id": "1"}}] as nested association lists. *)
Definition chat_input : Type := list (string * string).
Definition invoke_config : Type := list (string * list (string * string)).

(** A requested tool invocation: a dict of which the script reads ['name']. *)
Record tool_call : Type := { tc_name : option string }.

(** A message of the returned sequence.  [msg_tool_calls] and [msg_content]
    are [None] when the object has no such attribute; [msg_str] is its
    [str()]. *)
Record message : Type := {
  msg_tool_calls : option (list tool_call);
  msg_content : option string;
  msg_str : string
}.

(** What [ainvoke] returns: [resp_messages] is [None] when the key
    "messages" is absent; [resp_str] is its [str()]. *)
Record response : Type := {
  resp_messages : option (list message);
  resp_str : string
}.

(** ** Observable events *)

Inductive event : Type :=
| Stdout (line : string)
| Traceback (e : exn)
| GetTools (c : client)
| Ainvoke (a : agent) (input : chat_input) (config : invoke_config).

(** The network-bound calls: tool discovery and the agent's turn. *)
Definition is_network (ev : event) : bool :=
  match ev with
  | GetTools _ | Ainvoke _ _ _ => true
  | Stdout _ | Traceback _ => false
  end.

Definition is_model_call (ev : event) : bool :=
  match ev with
  | Ainvoke _ _ _ => true
  | _ => false
  end.

Definition network_calls (t : list event) : list event :=
  List.filter is_network t.

Definition model_calls (t : list event) : list event :=
  List.filter is_model_call t.

(** The exceptions whose traceback a trace shows, in order. *)
Definition tracebacks (t : list event) : list exn :=
  omap (fun ev => match ev with Traceback e => Some e | _ => None end) t.

(** The exceptions among the results of a series of library calls. *)
Definition raised {A} (results : list (lib_result A)) : list exn :=
  omap (fun r => match r with
                 | Raises cls msg => Some (Exc cls msg)
                 | Returns _ => None
                 end) results.

(** ** Configuration read by the driver *)

Definition default_mcp_url : string := "https://mcp.programintegrity.org".

(** Lines 85-87 of [main]. *)
Definition mcp_url (env : environ) : string :=
  getenv_default env "PIA_MCP_URL" default_mcp_url.

Definition mcp_api_key (env : environ) : option string :=
  env !! "PIA_API_KEY".

Definition llm_provider (env : environ) : string :=
  PyStr.lower (getenv_default env "LLM_PROVIDER" "openai").

(** The client [main] builds from the configuration. *)
Definition mcp_client (env : environ) : client :=
  MultiServerMCPClient (mcp_url env) (default "" (mcp_api_key env)).

(** The provider identities [create_llm] dispatches on, in the order of its
    branches, and the variables each branch insists on. *)
Definition supported_providers : list string := ["openai"; "azure"; "claude"].

Definition required_credentials (provider : string) : list string :=
  if decide (provider = "openai") then ["OPENAI_API_KEY"]
  else if decide (provider = "azure") then
    ["AZURE_OPENAI_API_KEY"; "AZURE_OPENAI_ENDPOINT"; "AZURE_OPENAI_DEPLOYMENT_NAME"]
  else if decide (provider = "claude") then ["ANTHROPIC_API_KEY"]
  else [].

Definition unknown_provider_message (provider : string) : string :=
  "Unknown provider: " +:+ provider +:+ ". Use 'openai', 'azure', or 'claude'".

(** Every variable a branch of [create_llm] reads: the required ones and the
    ones that have a default. *)
Definition provider_variables (provider : string) : list string :=
  if decide (provider = "openai") then ["OPENAI_API_KEY"; "OPENAI_MODEL"]
  else if decide (provider = "azure") then
    ["AZURE_OPENAI_API_KEY"; "AZURE_OPENAI_ENDPOINT";
     "AZURE_OPENAI_DEPLOYMENT_NAME"; "AZURE_OPENAI_API_VERSION"]
  else if decide (provider = "claude") then ["ANTHROPIC_API_KEY"; "ANTHROPIC_MODEL"]
  else [].

(** ** The driver *)

Section Driver.

(** The outside world: the remote tool server, the model provider and
    whatever the agent object keeps between calls.  [get_tools] is
    [client.get_tools()] and [ainvoke] is [agent.ainvoke(input, config)];
    each returns or raises an instance of [Exception], and may change the
    world. *)
Context {World : Type}.
Context (get_tools : client -> World -> lib_result (list tool) * World).
Context (ainvoke : agent -> chat_input -> invoke_config -> World ->
                   lib_result response * World).

(** A computation returns or raises, may change the world, and emits
    events. *)
Definition M (A : Type) : Type := World -> outcome A * World * list event.

Definition ret {A} (a : A) : M A := fun w => (Ok a, w, []).

Definition bind {A B} (m : M A) (k : A -> M B) : M B :=
  fun w =>
    match m w with
    | (Ok a, w1, t1) => let '(r, w2, t2) := k a w1 in (r, w2, t1 ++ t2)
    | (Raise e, w1, t1) => (Raise e, w1, t1)
    end.

Definition raise {A} (e : exn) : M A := fun w => (Raise e, w, []).

Definition emit (ev : event) : M unit := fun w => (Ok tt, w, [ev]).

(** [try: body except Exception as e: handler(e)] *)
Definition try_except (body : M unit) (handler : exn -> M unit) : M unit :=
  fun w =>
    match body w with
    | (Ok a, w1, t1) => (Ok a, w1, t1)
    | (Raise e, w1, t1) =>
        if is_Exception e
        then let '(r, w2, t2) := handler e w1 in (r, w2, t1 ++ t2)
        else (Raise e, w1, t1)
    end.

(** A pure call that may raise. *)
Definition lift {A} (r : outcome A) : M A := fun w => (r, w, []).

(** A network-bound call: the event, then the world's answer. *)
Definition call {A} (ev : event) (f : World -> lib_result A * World) : M A :=
  fun w => let '(r, w1) := f w in (outcome_of r, w1, [ev]).

Notation "x <- m ;; k" := (bind m (fun x => k))
  (at level 100, m at next level, k at level 200, right associativity).
Notation "m ;;; k" := (bind m (fun _ => k))
  (at level 100, k at level 200, right associativity).

Definition print (line : string) : M unit := emit (Stdout line).
Definition print_exc (e : exn) : M unit := emit (Traceback e).
Definition sys_exit {A} (code : Z) : M A := raise (SystemExit code).

(** [for x in xs: body(x)] *)
Fixpoint for_each {A} (xs : list A) (body : A -> M unit) : M unit :=
  match xs with
  | [] => ret tt
  | x :: rest => body x ;;; for_each rest body
  end.

Definition system_prompt : string :=
  "You are a helpful assistant with access to the Program Integrity Alliance (PIA) database.

IMPORTANT INSTRUCTIONS:
1. You MUST use the available tools to search the database for every query
2. When you receive tool results, READ THE ENTIRE JSON response carefully
3. The tool returns a JSON object with " +:+ PyStr.dq +:+ "output" +:+ PyStr.dq +:+
  " containing " +:+ PyStr.dq +:+ "results" +:+ PyStr.dq +:+ " and " +:+
  PyStr.dq +:+ "citations" +:+ PyStr.dq +:+ "
4. ALWAYS summarize what you found from the tool results
5. If tool results show documents, describe them to the user
6. Include specific details like titles, agencies, and dates from the results
7. Never say " +:+ PyStr.dq +:+ "no results" +:+ PyStr.dq +:+
  " if the tool returned data with a positive total_count

Use the available tools to search for government audit recommendations, reports, and integrity data.".

Definition example_query : string := "Search for fraud recommendations from GAO".

(** The two arguments of [agent.ainvoke] for one query. *)
Definition turn_input (query : string) : chat_input := [("user", query)].
Definition turn_config : invoke_config := [("configurable", [("thread_id", "1")])].

(** Lines 149-162: the example query, or the command line joined. *)
Definition select_queries (argv : list string) : M (list string) :=
  let queries := [example_query] in
  if (1 <? length argv)%nat then
    let custom_query := PyStr.join " " (drop 1 argv) in
    print ("🔍 Running custom query: " +:+ custom_query) ;;;
    print "" ;;;
    ret [custom_query]
  else
    print "🔍 Running example query..." ;;;
    print "   (You can also pass a custom query as a command-line argument)" ;;;
    print "" ;;;
    ret queries.

(** Lines 181-204: display of the response. *)
Definition show_tool_calls (msg : message) : M unit :=
  match msg_tool_calls msg with
  | Some (tc :: tcs) =>
      print ("   🔧 Tool calls made: " +:+ pretty (length (tc :: tcs))) ;;;
      for_each (tc :: tcs)
        (fun tc => print ("      - " +:+ default "unknown" (tc_name tc)))
  | _ => ret tt
  end.

Definition show_response (resp : response) : M unit :=
  print "" ;;;
  match resp_messages resp with
  | Some messages =>
      print ("📊 Agent executed " +:+ pretty (length messages) +:+ " steps") ;;;
      for_each messages show_tool_calls ;;;
      match last messages with
      | Some last_message =>
          let content := default (msg_str last_message) (msg_content last_message) in
          print "" ;;;
          print "💬 Agent Response:" ;;;
          print content
      | None => print "💬 Agent Response: (no messages)"
      end
  | None =>
      print "💬 Agent Response:" ;;;
      print (resp_str resp)
  end.

(** Lines 166-211: the body of the loop for query number [i]. *)
Definition run_query (ag : agent) (i : nat) (query : string) : M unit :=
  print (PyStr.repeat "=" 80) ;;;
  print "" ;;;
  print ("📝 Query " +:+ pretty i +:+ ": " +:+ query) ;;;
  print (PyStr.repeat "-" 80) ;;;
  print "" ;;;
  try_except
    (print "🤖 Agent processing query..." ;;;
     resp <- call (Ainvoke ag (turn_input query) turn_config)
                  (ainvoke ag (turn_input query) turn_config) ;;
     show_response resp)
    (fun e =>
       print ("❌ Error: " +:+ exn_str e) ;;;
       print_exc e) ;;;
  print "".

(** [for i, query in enumerate(queries, i): ...] *)
Fixpoint run_queries (ag : agent) (i : nat) (queries : list string) : M unit :=
  match queries with
  | [] => ret tt
  | query :: rest => run_query ag i query ;;; run_queries ag (S i) rest
  end.

(** [main()], with [os.environ] and [sys.argv] made explicit. *)
Definition main (env : environ) (argv : list string) : M unit :=
  let mcp_url := mcp_url env in
  let mcp_api_key := mcp_api_key env in
  let llm_provider := llm_provider env in
  (if negb (truthy mcp_api_key) then
     print "❌ Error: PIA_API_KEY environment variable is required" ;;;
     print "   Get an API key from: https://mcp.programintegrity.org/register" ;;;
     sys_exit 1
   else ret tt) ;;;
  print "🚀 Starting LangChain MCP Example" ;;;
  print ("   MCP Server: " +:+ mcp_url) ;;;
  print ("   LLM Provider: " +:+ llm_provider) ;;;
  print "" ;;;
  print "🔄 Connecting to PIA MCP Server..." ;;;
  let client := MultiServerMCPClient mcp_url (default "" mcp_api_key) in
  print "✅ Connected to MCP server" ;;;
  print "" ;;;
  print "🔄 Fetching available tools..." ;;;
  tools <- call (GetTools client) (get_tools client) ;;
  print ("✅ Retrieved " +:+ pretty (length tools) +:+ " tools:") ;;;
  for_each tools (fun tool => print ("   - " +:+ tool_name tool)) ;;;
  print "" ;;;
  print ("🔄 Initializing " +:+ PyStr.upper llm_provider +:+ " LLM...") ;;;
  llm <- lift (create_llm env llm_provider) ;;
  print "✅ LLM initialized" ;;;
  print "" ;;;
  print "🔄 Creating agent with MCP tools..." ;;;
  let agent := create_agent llm tools system_prompt in
  print "✅ Agent created" ;;;
  print "" ;;;
  queries <- select_queries argv ;;
  run_queries agent 1 queries ;;;
  print "✅ Example complete!" ;;;
  print "" ;;;
  print "💡 Tips:" ;;;
  print "   - Pass your own query as a command-line argument" ;;;
  print "   - Modify the script to build more complex agent workflows" ;;;
  print "   - Check the README.md for more information".

(** [asyncio.run(main())] under the interpreter: the exit status and the
    events of the run.  A normal return exits 0, [SystemExit(code)] exits
    [code], and any other uncaught exception prints its traceback and
    exits 1. *)
Definition script (env : environ) (argv : list string) (w : World)
  : Z * list event :=
  match main env argv w with
  | (Ok _, _, t) => (0%Z, t)
  | (Raise (SystemExit code), _, t) => (code, t)
  | (Raise e, _, t) => (1%Z, t ++ [Traceback e])
  end.

(** What the agent answers to a series of queries asked one after the
    other, and the world after the last of them. *)
Fixpoint turn_outcomes (ag : agent) (queries : list string) (w : World)
  : list (lib_result response) * World :=
  match queries with
  | [] => ([], w)
  | query :: rest =>
      let '(r, w1) := ainvoke ag (turn_input query) turn_config w in
      let '(rs, w2) := turn_outcomes ag rest w1 in
      (r :: rs, w2)
  end.

End Driver.

(** ** Test doubles

    Concrete worlds on which the driver can be run: a tool server that
    answers with one tool or is unreachable, and agents that answer, fail
    on one query, or keep a counter of the turns they have served. *)

Module Doubles.

Definition search_tool : tool := {| tool_name := "search" |}.

Definition one_tool {W} (c : client) (w : W) : lib_result (list tool) * W :=
  (Returns [search_tool], w).

Definition unreachable {W} (c : client) (w : W) : lib_result (list tool) * W :=
  (Raises "ConnectionError" "All connection attempts failed", w).

Definition final_message (text : string) : message :=
  {| msg_tool_calls := None; msg_content := Some text; msg_str := text |}.

Definition answer (text : string) : response :=
  {| resp_messages := Some [final_message text]; resp_str := text |}.

(** Answers every query with the query itself; the world counts turns. *)
Definition echo_agent (a : agent) (input : chat_input) (config : invoke_config)
           (w : nat) : lib_result response * nat :=
  (Returns (answer (PyStr.join " " (snd <$> input))), S w).

(** Fails on the query "bad" and echoes every other one. *)
Definition fragile_agent (a : agent) (input : chat_input) (config : invoke_config)
           (w : nat) : lib_result response * nat :=
  if decide (input = [("user", "bad")])
  then (Raises "RuntimeError" "boom", S w)
  else echo_agent a input config w.

Definition script_name : string := "langchain_mcp_example.py".

Definition env_pia_only : environ := {[ "PIA_API_KEY" := "pia-key" ]}.

Definition env_openai : environ :=
  <[ "OPENAI_API_KEY" := "sk-test" ]> env_pia_only.


Definition openai_handle : llm := ChatOpenAI "gpt-4o-mini" 0 "sk-test".

Definition demo_agent : agent :=
  create_agent openai_handle [search_tool] system_prompt.

Definition env_unknown_provider : environ :=
  <[ "LLM_PROVIDER" := "Gemini" ]> env_openai.

Definition env_custom_url : environ :=
  <[ "PIA_MCP_URL" := "http://localhost:8000/mcp" ]> env_openai.

End Doubles.

(** * Properties *)

(** ** String facts *)

Lemma lower_char_small_of (c : ascii) : PyStr.lower_char c = PyStr.small_of c.
Proof. destruct c as [[] [] [] [] [] [] [] []]; vm_compute; reflexivity. Qed.






(** ** Facts about [create_llm] *)

Lemma create_llm_unsupported (env : environ) (provider : string) :
  provider ∉ supported_providers ->
  create_llm env provider = Raise (ValueError (unknown_provider_message provider)).
Proof.
  unfold supported_providers. rewrite !not_elem_of_cons.
  intros (H1 & H2 & H3 & _). unfold create_llm.
  repeat case_decide; try contradiction. reflexivity.
Qed.

Lemma create_llm_raises_ValueError (env : environ) (provider : string) (e : exn) :
  create_llm env provider = Raise e -> exn_class e = "ValueError".
Proof.
  unfold create_llm.
  repeat case_decide;
    repeat match goal with |- context [if ?b then _ else _] => destruct b end;
    intros Hres; inversion Hres; reflexivity.
Qed.

Lemma create_llm_zero_temperature (env : environ) (provider : string) (h : llm) :
  create_llm env provider = Ok h -> temperature_kwarg h = 0%Z.
Proof.
  unfold create_llm.
  repeat case_decide;
    repeat match goal with |- context [if ?b then _ else _] => destruct b end;
    intros Hres; inversion Hres; reflexivity.
Qed.

Lemma unknown_message_not_credential (provider msg : string) :
  msg ∈ ["OPENAI_API_KEY environment variable is required";
         "AZURE_OPENAI_API_KEY, AZURE_OPENAI_ENDPOINT, and " +:+
         "AZURE_OPENAI_DEPLOYMENT_NAME are required for Azure";
         "ANTHROPIC_API_KEY environment variable is required"] ->
  unknown_provider_message provider <> msg.
Proof.
  rewrite !elem_of_cons, elem_of_nil.
  intros [-> | [-> | [-> | []]]]; discriminate.
Qed.

Lemma create_llm_supported_failure (env : environ) (provider : string) (e : exn) :
  provider ∈ supported_providers ->
  create_llm env provider = Raise e ->
  exists msg, e = ValueError msg /\
    msg ∈ ["OPENAI_API_KEY environment variable is required";
           "AZURE_OPENAI_API_KEY, AZURE_OPENAI_ENDPOINT, and " +:+
           "AZURE_OPENAI_DEPLOYMENT_NAME are required for Azure";
           "ANTHROPIC_API_KEY environment variable is required"].
Proof.
  unfold supported_providers. rewrite !elem_of_cons, elem_of_nil.
  intros [-> | [-> | [-> | []]]]; unfold create_llm; simpl;
    match goal with |- context [if ?b then _ else _] => destruct b end;
    intros Hres; inversion Hres; eexists; (split; [reflexivity|]);
    rewrite !elem_of_cons; auto.
Qed.

(** C1, as the code has it.  For a supported provider whose required
    variables are all set and non-empty, [create_llm] returns a handle of
    that provider.  For
    a supported provider one of whose required variables is absent or empty,
    it raises a [ValueError] whose message contains that variable's name.
    For any other provider string it raises a [ValueError] too, with the
    "Unknown provider" message; that failure has the same exception class as
    a missing-credential failure and differs from it in the message only. *)
Theorem create_llm_outcomes (env : environ) (provider : string) :
  (provider ∈ supported_providers ->
   Forall (fun k => truthy (env !! k) = true) (required_credentials provider) ->
   exists h, create_llm env provider = Ok h /\ handle_provider h = provider)
  /\ (provider ∈ supported_providers ->
      forall k, k ∈ required_credentials provider ->
                truthy (env !! k) = false ->
      exists msg, create_llm env provider = Raise (ValueError msg)
                  /\ PyStr.contains k msg = true)
  /\ (provider ∉ supported_providers ->
      create_llm env provider
      = Raise (ValueError (unknown_provider_message provider))
      /\ forall env' provider' e,
           provider' ∈ supported_providers ->
           create_llm env' provider' = Raise e ->
           exn_class e = exn_class (ValueError (unknown_provider_message provider))
           /\ exn_str e <> unknown_provider_message provider).
Proof.
  split; [|split].
  - unfold supported_providers. rewrite !elem_of_cons, elem_of_nil.
    intros [-> | [-> | [-> | []]]]; unfold required_credentials; simpl;
      rewrite ?Forall_cons; unfold create_llm; simpl.
    + intros [-> _]. eauto.
    + intros (-> & -> & -> & _). simpl. eauto.
    + intros [-> _]. eauto.
  - unfold supported_providers. rewrite !elem_of_cons, elem_of_nil.
    intros [-> | [-> | [-> | []]]] k; unfold required_credentials; simpl;
      rewrite !elem_of_cons, elem_of_nil; unfold create_llm; simpl.
    + intros [-> | []] ->. simpl. eauto.
    + intros [-> | [-> | [-> | []]]] ->; simpl;
        rewrite ?andb_false_r; simpl; eauto.
    + intros [-> | []] ->. simpl. eauto.
  - intros Hnot. split; [apply create_llm_unsupported, Hnot|].
    intros env' provider' e Hin Hres.
    destruct (create_llm_supported_failure env' provider' e Hin Hres)
      as (msg & -> & Hmsg).
    split; [reflexivity|]. simpl. intros Heq.
    exact (unknown_message_not_credential provider msg Hmsg (eq_sym Heq)).
Qed.

(** The three outcomes at concrete environments. *)
Lemma create_llm_outcomes_witness :
  ("openai" ∈ supported_providers
   /\ Forall (fun k => truthy (Doubles.env_openai !! k) = true)
             (required_credentials "openai")
   /\ exists h, create_llm Doubles.env_openai "openai" = Ok h
                /\ handle_provider h = "openai")
  /\ ("azure" ∈ supported_providers
      /\ "AZURE_OPENAI_ENDPOINT" ∈ required_credentials "azure"
      /\ truthy (Doubles.env_openai !! "AZURE_OPENAI_ENDPOINT") = false
      /\ exists msg, create_llm Doubles.env_openai "azure" = Raise (ValueError msg)
                     /\ PyStr.contains "AZURE_OPENAI_ENDPOINT" msg = true)
  /\ (("gemini" ∉ supported_providers)
      /\ create_llm Doubles.env_openai "gemini"
         = Raise (ValueError (unknown_provider_message "gemini"))).
Proof.
  assert (Hin1 : "openai" ∈ supported_providers) by (apply list_elem_of_here).
  assert (Hin2 : "azure" ∈ supported_providers)
    by (apply list_elem_of_further, list_elem_of_here).
  assert (Hreq1 : Forall (fun k => truthy (Doubles.env_openai !! k) = true)
                         (required_credentials "openai"))
    by (repeat constructor).
  assert (Hreq2 : "AZURE_OPENAI_ENDPOINT" ∈ required_credentials "azure")
    by (apply list_elem_of_further, list_elem_of_here).
  assert (Hmiss : truthy (Doubles.env_openai !! "AZURE_OPENAI_ENDPOINT") = false)
    by (vm_compute; reflexivity).
  assert (Hout : "gemini" ∉ supported_providers).
  { unfold supported_providers. rewrite !not_elem_of_cons.
    repeat split; try discriminate. apply not_elem_of_nil. }
  destruct (create_llm_outcomes Doubles.env_openai "openai") as (Hok & _ & _).
  destruct (create_llm_outcomes Doubles.env_openai "azure") as (_ & Hmissing & _).
  destruct (create_llm_outcomes Doubles.env_openai "gemini") as (_ & _ & Hunknown).
  split; [|split].
  - split; [exact Hin1|]. split; [exact Hreq1|]. exact (Hok Hin1 Hreq1).
  - split; [exact Hin2|]. split; [exact Hreq2|]. split; [exact Hmiss|].
    exact (Hmissing Hin2 _ Hreq2 Hmiss).
  - split; [exact Hout|]. exact (proj1 (Hunknown Hout)).
Defined.

(** C1 as stated asks for an unsupported-provider failure of a kind of its
    own, distinct from the missing-credential failure.  In the code the two
    failures are raised as the same exception class, [ValueError]. *)
Lemma create_llm_failures_same_class :
  exists e_unknown e_missing,
    create_llm ∅ "gemini" = Raise e_unknown
    /\ create_llm ∅ "openai" = Raise e_missing
    /\ exn_class e_unknown = "ValueError"
    /\ exn_class e_missing = "ValueError"
    /\ ~ (exn_class e_unknown <> exn_class e_missing).
Proof.
  eexists _, _.
  split; [vm_compute; reflexivity|].
  split; [vm_compute; reflexivity|].
  split; [reflexivity|]. split; [reflexivity|].
  intros Hne. apply Hne. reflexivity.
Qed.

(** C5, as the code has it.  For every provider, the temperature that
    [create_llm] passes to the model constructor is 0, and it is the same
    whatever the environment holds: the keyword argument is a literal of each
    call and the script reads no setting for it.  This is the value the
    script asks for; the temperature of the object the SDK then builds is the
    SDK's to decide. *)
Theorem temperature_argument_is_zero (env : environ) (provider : string) (h : llm) :
  create_llm env provider = Ok h ->
  temperature_kwarg h = 0%Z
  /\ forall env' h', create_llm env' provider = Ok h' ->
                     temperature_kwarg h' = temperature_kwarg h.
Proof.
  intros Hh. pose proof (create_llm_zero_temperature _ _ _ Hh) as Hz.
  split; [exact Hz|].
  intros env' h' Hh'. rewrite Hz. exact (create_llm_zero_temperature _ _ _ Hh').
Qed.

Lemma temperature_argument_is_zero_witness :
  create_llm Doubles.env_openai "openai" = Ok Doubles.openai_handle
  /\ temperature_kwarg Doubles.openai_handle = 0%Z.
Proof.
  assert (Hh : create_llm Doubles.env_openai "openai" = Ok Doubles.openai_handle)
    by (vm_compute; reflexivity).
  split; [exact Hh|].
  exact (proj1 (temperature_argument_is_zero Doubles.env_openai "openai"
                  Doubles.openai_handle Hh)).
Defined.

(** C5 as stated lets the operator override the default temperature through
    configuration.  The script has no such setting: with variables named
    after the temperature set to 1, for each of the three providers, the
    call [create_llm] makes still passes temperature 0. *)
Lemma temperature_settings_are_not_read :
  create_llm (<[ "TEMPERATURE" := "1" ]>
                (<[ "OPENAI_TEMPERATURE" := "1" ]>
                   (<[ "LLM_TEMPERATURE" := "1" ]> Doubles.env_openai))) "openai"
  = Ok (ChatOpenAI "gpt-4o-mini" 0 "sk-test")
  /\ create_llm (<[ "TEMPERATURE" := "1" ]>
                   (<[ "ANTHROPIC_TEMPERATURE" := "1" ]>
                      {[ "ANTHROPIC_API_KEY" := "sk-ant" ]})) "claude"
     = Ok (ChatAnthropic "claude-3-5-sonnet-20241022" "sk-ant" 0)
  /\ create_llm (<[ "TEMPERATURE" := "1" ]>
                   (<[ "AZURE_OPENAI_TEMPERATURE" := "1" ]>
                      (<[ "AZURE_OPENAI_API_KEY" := "az-key" ]>
                         (<[ "AZURE_OPENAI_ENDPOINT" := "https://example.azure.com" ]>
                            {[ "AZURE_OPENAI_DEPLOYMENT_NAME" := "gpt4" ]})))) "azure"
     = Ok (AzureChatOpenAI "https://example.azure.com" "gpt4" "2024-02-15-preview"
                           "az-key" 0).
Proof. repeat split; vm_compute; reflexivity. Qed.

(** ** Facts about the driver *)

Section DriverFacts.

Context {World : Type}.
Context (get_tools : client -> World -> lib_result (list tool) * World).
Context (ainvoke : agent -> chat_input -> invoke_config -> World ->
                   lib_result response * World).

(** *** Stepping through the monad *)

Lemma bind_ret {A B} (a : A) (k : A -> M B) (w : World) :
  bind (ret a) k w = k a w.
Proof. unfold bind, ret. simpl. destruct (k a w) as [[r w2] t2]. reflexivity. Qed.

Lemma bind_print {B} (line : string) (k : unit -> M B) (w : World) :
  bind (print line) k w
  = let '(r, w2, t2) := k tt w in (r, w2, Stdout line :: t2).
Proof. reflexivity. Qed.

Lemma bind_returns {A B} (m : M A) (k : A -> M B) (w w1 : World) a t1 :
  m w = (Ok a, w1, t1) ->
  bind m k w = let '(r, w2, t2) := k a w1 in (r, w2, t1 ++ t2).
Proof. intros Hm. unfold bind. rewrite Hm. reflexivity. Qed.

Lemma network_calls_app (t1 t2 : list event) :
  network_calls (t1 ++ t2) = network_calls t1 ++ network_calls t2.
Proof. apply List.filter_app. Qed.

Lemma network_calls_stdout (lines : list string) :
  network_calls (Stdout <$> lines) = [].
Proof. induction lines as [|l lines IH]; [reflexivity | exact IH]. Qed.

(** *** Loops and displays that only print *)

Lemma for_each_print {A} (f : A -> string) (xs : list A) (w : World) :
  for_each xs (fun x => print (f x)) w = (Ok tt, w, Stdout <$> (f <$> xs)).
Proof.
  induction xs as [|x xs IH]; [reflexivity|].
  simpl. rewrite bind_print, IH. reflexivity.
Qed.

Lemma show_tool_calls_prints (msg : message) (w : World) :
  exists lines, show_tool_calls msg w = (Ok tt, w, Stdout <$> lines).
Proof.
  unfold show_tool_calls. destruct (msg_tool_calls msg) as [[|tc tcs]|].
  - exists []. reflexivity.
  - rewrite bind_print, for_each_print. eexists (_ :: _). reflexivity.
  - exists []. reflexivity.
Qed.

Lemma for_each_show_tool_calls (messages : list message) (w : World) :
  exists lines,
    for_each messages show_tool_calls w = (Ok tt, w, Stdout <$> lines).
Proof.
  induction messages as [|msg messages [lines IH]]; [exists []; reflexivity|].
  destruct (show_tool_calls_prints msg w) as [lines0 H0].
  simpl. rewrite (bind_returns _ _ _ _ _ _ H0), IH.
  exists (lines0 ++ lines). rewrite fmap_app. reflexivity.
Qed.

Lemma show_response_prints (resp : response) (w : World) :
  exists lines, show_response resp w = (Ok tt, w, Stdout <$> lines).
Proof.
  unfold show_response. rewrite bind_print.
  destruct (resp_messages resp) as [messages|].
  - rewrite bind_print.
    destruct (for_each_show_tool_calls messages w) as [lines Hl].
    rewrite (bind_returns _ _ _ _ _ _ Hl).
    destruct (last messages) as [last_message|].
    + eexists (_ :: _ :: lines ++ [_; _; _]).
      rewrite !fmap_cons, fmap_app. reflexivity.
    + eexists (_ :: _ :: lines ++ [_]).
      rewrite !fmap_cons, fmap_app. reflexivity.
  - eexists [_; _; _]. reflexivity.
Qed.

Lemma select_queries_spec (argv : list string) (w : World) :
  exists lines,
    select_queries argv w
    = (Ok [if (1 <? length argv)%nat
           then PyStr.join " " (drop 1 argv) else example_query],
       w, Stdout <$> lines).
Proof.
  unfold select_queries. destruct (1 <? length argv)%nat.
  - eexists [_; _]. reflexivity.
  - eexists [_; _; _]. reflexivity.
Qed.

Lemma network_calls_discovery (c : client) (t : list event) :
  network_calls (GetTools c :: t) = GetTools c :: network_calls t.
Proof. reflexivity. Qed.

Lemma model_calls_network_calls (t : list event) :
  model_calls (network_calls t) = model_calls t.
Proof.
  induction t as [|ev t IH]; [reflexivity|].
  destruct ev; simpl; unfold model_calls in *; simpl; rewrite ?IH; reflexivity.
Qed.

(** *** One query *)

Lemma run_query_returns (ag : agent) (i : nat) (query : string)
      (w w1 : World) (resp : response) :
  ainvoke ag (turn_input query) turn_config w = (Returns resp, w1) ->
  exists lines,
    run_query ainvoke ag i query w
    = (Ok tt, w1,
       [Stdout (PyStr.repeat "=" 80); Stdout "";
        Stdout ("📝 Query " +:+ pretty i +:+ ": " +:+ query);
        Stdout (PyStr.repeat "-" 80); Stdout "";
        Stdout "🤖 Agent processing query...";
        Ainvoke ag (turn_input query) turn_config]
       ++ (Stdout <$> lines)).
Proof.
  intros Hturn. destruct (show_response_prints resp w1) as [shown Hshown].
  exists (shown ++ [""]).
  unfold run_query. rewrite !bind_print.
  unfold bind at 1. unfold try_except.
  rewrite bind_print. unfold bind at 1. unfold call. rewrite Hturn. simpl.
  rewrite Hshown. simpl. rewrite fmap_app. reflexivity.
Qed.

Lemma run_query_raises (ag : agent) (i : nat) (query : string)
      (w w1 : World) (cls msg : string) :
  ainvoke ag (turn_input query) turn_config w = (Raises cls msg, w1) ->
  run_query ainvoke ag i query w
  = (Ok tt, w1,
     [Stdout (PyStr.repeat "=" 80); Stdout "";
      Stdout ("📝 Query " +:+ pretty i +:+ ": " +:+ query);
      Stdout (PyStr.repeat "-" 80); Stdout "";
      Stdout "🤖 Agent processing query...";
      Ainvoke ag (turn_input query) turn_config;
      Stdout ("❌ Error: " +:+ msg);
      Traceback (Exc cls msg);
      Stdout ""]).
Proof.
  intros Hturn.
  unfold run_query. rewrite !bind_print.
  unfold bind at 1. unfold try_except.
  rewrite bind_print. unfold bind at 1. unfold call. rewrite Hturn.
  reflexivity.
Qed.

Lemma run_query_total (ag : agent) (i : nat) (query : string) (w : World) :
  exists t,
    run_query ainvoke ag i query w
    = (Ok tt, snd (ainvoke ag (turn_input query) turn_config w), t)
    /\ network_calls t = [Ainvoke ag (turn_input query) turn_config].
Proof.
  destruct (ainvoke ag (turn_input query) turn_config w) as [[resp|cls msg] w1] eqn:Hturn.
  - destruct (run_query_returns ag i query w w1 resp Hturn) as [lines Hrun].
    eexists. split; [exact Hrun|].
    rewrite network_calls_app, network_calls_stdout. reflexivity.
  - eexists. split; [exact (run_query_raises ag i query w w1 cls msg Hturn)|].
    reflexivity.
Qed.

(** *** The loop over the queries *)

Lemma run_queries_total (ag : agent) (queries : list string) :
  forall (i : nat) (w : World),
  exists w' t,
    run_queries ainvoke ag i queries w = (Ok tt, w', t)
    /\ network_calls t
       = (fun query => Ainvoke ag (turn_input query) turn_config) <$> queries.
Proof.
  induction queries as [|query rest IH]; intros i w.
  - exists w, []. split; reflexivity.
  - destruct (run_query_total ag i query w) as (t1 & Hq & Hn1).
    destruct (IH (S i) (snd (ainvoke ag (turn_input query) turn_config w)))
      as (w2 & t2 & Hrest & Hn2).
    exists w2, (t1 ++ t2). split.
    + simpl. rewrite (bind_returns _ _ _ _ _ _ Hq), Hrest. reflexivity.
    + rewrite network_calls_app, Hn1, Hn2. reflexivity.
Qed.

Lemma run_queries_app (ag : agent) (before after : list string) :
  forall (i : nat) (w w1 : World) (t1 : list event),
  run_queries ainvoke ag i before w = (Ok tt, w1, t1) ->
  run_queries ainvoke ag i (before ++ after) w
  = let '(r, w2, t2) := run_queries ainvoke ag (i + length before) after w1 in
    (r, w2, t1 ++ t2).
Proof.
  induction before as [|query rest IH]; intros i w w1 t1 Hbefore.
  - simpl in *. injection Hbefore as <- <-.
    rewrite Nat.add_0_r.
    destruct (run_queries ainvoke ag i after w) as [[r w2] t2]. reflexivity.
  - destruct (run_query_total ag i query w) as (tq & Hq & _).
    simpl in Hbefore. rewrite (bind_returns _ _ _ _ _ _ Hq) in Hbefore.
    destruct (run_queries ainvoke ag (S i) rest
                (snd (ainvoke ag (turn_input query) turn_config w)))
      as [[r wr] tr] eqn:Hrest.
    injection Hbefore as -> -> <-.
    simpl. rewrite (bind_returns _ _ _ _ _ _ Hq).
    rewrite (IH _ _ _ _ Hrest).
    replace (S i + length rest) with (i + S (length rest)) by lia.
    destruct (run_queries ainvoke ag (i + S (length rest)) after w1)
      as [[r2 w2] t2].
    rewrite app_assoc. reflexivity.
Qed.

(** *** The four ways [main] can go *)

Lemma main_without_key (env : environ) (argv : list string) (w : World) :
  truthy (mcp_api_key env) = false ->
  main get_tools ainvoke env argv w
  = (Raise (SystemExit 1), w,
     [Stdout "❌ Error: PIA_API_KEY environment variable is required";
      Stdout "   Get an API key from: https://mcp.programintegrity.org/register"]).
Proof.
  intros Hkey. unfold main. rewrite Hkey. reflexivity.
Qed.

Lemma main_discovery_raises (env : environ) (argv : list string)
      (w w1 : World) (cls msg : string) :
  truthy (mcp_api_key env) = true ->
  get_tools (mcp_client env) w = (Raises cls msg, w1) ->
  exists lines,
    main get_tools ainvoke env argv w
    = (Raise (Exc cls msg), w1, (Stdout <$> lines) ++ [GetTools (mcp_client env)]).
Proof.
  intros Hkey Hget. unfold mcp_client in Hget. unfold main. rewrite Hkey. simpl.
  rewrite bind_ret, !bind_print.
  unfold bind at 1. unfold call. rewrite Hget.
  eexists [_; _; _; _; _; _; _; _]. reflexivity.
Qed.

Lemma main_create_llm_raises (env : environ) (argv : list string)
      (w w1 : World) (tools : list tool) (e : exn) :
  truthy (mcp_api_key env) = true ->
  get_tools (mcp_client env) w = (Returns tools, w1) ->
  create_llm env (llm_provider env) = Raise e ->
  exists lines1 lines2,
    main get_tools ainvoke env argv w
    = (Raise e, w1,
       (Stdout <$> lines1) ++ GetTools (mcp_client env) :: (Stdout <$> lines2)).
Proof.
  intros Hkey Hget Hllm. unfold mcp_client in Hget. unfold main. rewrite Hkey. simpl.
  rewrite bind_ret, !bind_print.
  unfold bind at 1. unfold call. rewrite Hget. simpl.
  rewrite bind_print.
  rewrite (bind_returns _ _ _ _ _ _ (for_each_print _ tools w1)).
  rewrite !bind_print.
  unfold bind at 1. unfold lift. rewrite Hllm.
  eexists [_; _; _; _; _; _; _; _], (_ :: (_ <$> tools) ++ [_; _]).
  simpl. rewrite fmap_app. reflexivity.
Qed.

Lemma main_runs_queries (env : environ) (argv : list string)
      (w w1 : World) (tools : list tool) (h : llm) :
  truthy (mcp_api_key env) = true ->
  get_tools (mcp_client env) w = (Returns tools, w1) ->
  create_llm env (llm_provider env) = Ok h ->
  exists lines1 lines2 lines3 w2 t,
    run_queries ainvoke (create_agent h tools system_prompt) 1
      [if (1 <? length argv)%nat
       then PyStr.join " " (drop 1 argv) else example_query] w1
    = (Ok tt, w2, t)
    /\ main get_tools ainvoke env argv w
       = (Ok tt, w2,
          (Stdout <$> lines1) ++ GetTools (mcp_client env)
            :: (Stdout <$> lines2) ++ t ++ (Stdout <$> lines3)).
Proof.
  intros Hkey Hget Hllm. unfold mcp_client in Hget.
  destruct (select_queries_spec argv w1) as [sel Hsel].
  set (query := if (1 <? length argv)%nat
                then PyStr.join " " (drop 1 argv) else example_query) in *.
  destruct (run_queries_total (create_agent h tools system_prompt) [query] 1 w1)
    as (w2 & t & Hrun & _).
  eexists [_; _; _; _; _; _; _; _].
  eexists (_ :: (_ <$> tools) ++ [_; _; _; _; _; _; _] ++ sel).
  eexists [_; _; _; _; _; _]. exists w2, t.
  split; [exact Hrun|].
  unfold main. rewrite Hkey. simpl.
  rewrite bind_ret, !bind_print.
  unfold bind at 1. unfold call. rewrite Hget. simpl.
  rewrite bind_print.
  rewrite (bind_returns _ _ _ _ _ _ (for_each_print _ tools w1)).
  rewrite !bind_print.
  unfold bind at 1. unfold lift. rewrite Hllm. simpl.
  rewrite !bind_print.
  rewrite (bind_returns _ _ _ _ _ _ Hsel).
  rewrite (bind_returns _ _ _ _ _ _ Hrun).
  rewrite !bind_print. simpl.
  rewrite !fmap_app. simpl.
  rewrite <- !app_assoc. simpl. reflexivity.
Qed.

Lemma script_without_key (env : environ) (argv : list string) (w : World) :
  truthy (mcp_api_key env) = false ->
  script get_tools ainvoke env argv w
  = (1%Z,
     [Stdout "❌ Error: PIA_API_KEY environment variable is required";
      Stdout "   Get an API key from: https://mcp.programintegrity.org/register"]).
Proof.
  intros Hkey. unfold script. rewrite (main_without_key _ _ _ Hkey). reflexivity.
Qed.

Lemma script_create_llm_raises (env : environ) (argv : list string)
      (w w1 : World) (tools : list tool) (e : exn) :
  truthy (mcp_api_key env) = true ->
  get_tools (mcp_client env) w = (Returns tools, w1) ->
  create_llm env (llm_provider env) = Raise e ->
  exists lines1 lines2,
    script get_tools ainvoke env argv w
    = (1%Z,
       ((Stdout <$> lines1) ++ GetTools (mcp_client env) :: (Stdout <$> lines2))
         ++ [Traceback e]).
Proof.
  intros Hkey Hget Hllm.
  destruct (main_create_llm_raises env argv w w1 tools e Hkey Hget Hllm)
    as (lines1 & lines2 & Hmain).
  exists lines1, lines2. unfold script. rewrite Hmain.
  pose proof (create_llm_raises_ValueError _ _ _ Hllm) as Hcls.
  destruct e as [cls msg|code]; [reflexivity | discriminate Hcls].
Qed.



(** The network-bound calls of a run that has the access credential. *)
Lemma script_network_calls (env : environ) (argv : list string) (w : World) :
  truthy (mcp_api_key env) = true ->
  network_calls (snd (script get_tools ainvoke env argv w))
  = GetTools (mcp_client env)
      :: match get_tools (mcp_client env) w with
         | (Returns tools, _) =>
             match create_llm env (llm_provider env) with
             | Ok h =>
                 [Ainvoke (create_agent h tools system_prompt)
                    (turn_input (if (1 <? length argv)%nat
                                 then PyStr.join " " (drop 1 argv)
                                 else example_query))
                    turn_config]
             | Raise _ => []
             end
         | (Raises _ _, _) => []
         end.
Proof.
  intros Hkey.
  destruct (get_tools (mcp_client env) w) as [[tools|cls msg] w1] eqn:Hget.
  - destruct (create_llm env (llm_provider env)) as [h|e] eqn:Hllm.
    + destruct (main_runs_queries env argv w w1 tools h Hkey Hget Hllm)
        as (l1 & l2 & l3 & w2 & t & Hrun & Hmain).
      destruct (run_queries_total (create_agent h tools system_prompt)
                  [if (1 <? length argv)%nat
                   then PyStr.join " " (drop 1 argv) else example_query] 1 w1)
        as (w2' & t' & Hrun' & Hnet).
      rewrite Hrun' in Hrun. injection Hrun as -> ->.
      unfold script. rewrite Hmain. cbn [snd].
      rewrite network_calls_app, network_calls_discovery, !network_calls_app.
      rewrite !network_calls_stdout, Hnet. reflexivity.
    + destruct (script_create_llm_raises env argv w w1 tools e Hkey Hget Hllm)
        as (l1 & l2 & Hscript).
      rewrite Hscript. cbn [snd].
      rewrite !network_calls_app, network_calls_discovery.
      rewrite !network_calls_stdout. reflexivity.
  - destruct (main_discovery_raises env argv w w1 cls msg Hkey Hget)
      as (l1 & Hmain).
    unfold script. rewrite Hmain. cbn [snd].
    rewrite !network_calls_app, network_calls_stdout. reflexivity.
Qed.

(** *** The claims about the driver *)

(** C3, as the code has it.  The exit status is 1 when [PIA_API_KEY] is
    absent or empty, and also when tool discovery raises or [create_llm]
    raises, since neither exception is caught; it is 0 in every run in
    which discovery and [create_llm] succeed, whatever the agent does with
    the queries. *)
Theorem exit_status (env : environ) (argv : list string) (w : World) :
  fst (script get_tools ainvoke env argv w)
  = if negb (truthy (mcp_api_key env)) then 1%Z
    else match get_tools (mcp_client env) w with
         | (Raises _ _, _) => 1%Z
         | (Returns _, _) =>
             match create_llm env (llm_provider env) with
             | Raise _ => 1%Z
             | Ok _ => 0%Z
             end
         end.
Proof.
  destruct (truthy (mcp_api_key env)) eqn:Hkey; simpl.
  - destruct (get_tools (mcp_client env) w) as [[tools|cls msg] w1] eqn:Hget.
    + destruct (create_llm env (llm_provider env)) as [h|e] eqn:Hllm.
      * destruct (main_runs_queries env argv w w1 tools h Hkey Hget Hllm)
          as (l1 & l2 & l3 & w2 & t & _ & Hmain).
        unfold script. rewrite Hmain. reflexivity.
      * destruct (script_create_llm_raises env argv w w1 tools e Hkey Hget Hllm)
          as (l1 & l2 & Hscript).
        rewrite Hscript. reflexivity.
    + destruct (main_discovery_raises env argv w w1 cls msg Hkey Hget)
        as (l1 & Hmain).
      unfold script. rewrite Hmain. reflexivity.
  - rewrite (script_without_key env argv w Hkey). reflexivity.
Qed.

(** C4, as the code has it.  A missing [PIA_API_KEY] is reported, with
    exit status 1, before any network-bound call.  With the key present the
    first network-bound call is tool discovery, and it is made whether or
    not the selected provider's configuration is valid: when discovery
    returns and [create_llm] then rejects the configuration, the run ends
    with exit status 1 and the traceback of that error, after the one
    discovery call and before any model call. *)
Theorem configuration_failures_and_network
        (env : environ) (argv : list string) (w : World) :
  (truthy (mcp_api_key env) = false ->
   fst (script get_tools ainvoke env argv w) = 1%Z
   /\ network_calls (snd (script get_tools ainvoke env argv w)) = []
   /\ Stdout "❌ Error: PIA_API_KEY environment variable is required"
        ∈ snd (script get_tools ainvoke env argv w))
  /\ (truthy (mcp_api_key env) = true ->
      exists rest,
        network_calls (snd (script get_tools ainvoke env argv w))
        = GetTools (mcp_client env) :: rest
        /\ forall tools w1 e,
             get_tools (mcp_client env) w = (Returns tools, w1) ->
             create_llm env (llm_provider env) = Raise e ->
             fst (script get_tools ainvoke env argv w) = 1%Z
             /\ rest = []
             /\ last (snd (script get_tools ainvoke env argv w))
                = Some (Traceback e)).
Proof.
  split; intros Hkey.
  - rewrite (script_without_key env argv w Hkey). simpl.
    split; [reflexivity|]. split; [reflexivity|]. apply list_elem_of_here.
  - eexists. split; [exact (script_network_calls env argv w Hkey)|].
    intros tools w1 e Hget Hllm. rewrite Hget, Hllm.
    destruct (script_create_llm_raises env argv w w1 tools e Hkey Hget Hllm)
      as (l1 & l2 & Hscript).
    rewrite Hscript. simpl.
    split; [reflexivity|]. split; [reflexivity|]. apply last_snoc.
Qed.

(** C6, as the code has it.  The tool-endpoint URL is optional: when
    [PIA_MCP_URL] is absent the driver takes the default URL, and, given the
    access credential, goes on to discover tools at that URL. *)
Theorem endpoint_url_defaults
        (env : environ) (argv : list string) (w : World) :
  env !! "PIA_MCP_URL" = None ->
  truthy (mcp_api_key env) = true ->
  mcp_url env = default_mcp_url
  /\ exists rest,
       network_calls (snd (script get_tools ainvoke env argv w))
       = GetTools (MultiServerMCPClient default_mcp_url
                     (default "" (mcp_api_key env))) :: rest.
Proof.
  intros Hurl Hkey.
  assert (Hdef : mcp_url env = default_mcp_url)
    by (unfold mcp_url, getenv_default; rewrite Hurl; reflexivity).
  split; [exact Hdef|].
  eexists. rewrite (script_network_calls env argv w Hkey).
  unfold mcp_client. rewrite Hdef. reflexivity.
Qed.

(** C7.  In a run over any sequence of queries, when the agent raises on
    one of them the exception is caught and reported under that query
    (the error line and the traceback), the loop goes on, and every later
    query is submitted, in order, each with an input built from that query
    alone: the rest of the run is the run of the remaining queries from
    the world the failed call left behind, and the loop returns normally. *)
Theorem failed_query_does_not_stop_the_rest
        (ag : agent) (i : nat) (before : list string) (query : string)
        (after : list string) (w : World) :
  exists wb tb,
    run_queries ainvoke ag i before w = (Ok tt, wb, tb)
    /\ forall cls msg w1,
         ainvoke ag (turn_input query) turn_config wb = (Raises cls msg, w1) ->
         exists w2 t_after,
           run_queries ainvoke ag (S (i + length before)) after w1
           = (Ok tt, w2, t_after)
           /\ network_calls t_after
              = (fun q => Ainvoke ag (turn_input q) turn_config) <$> after
           /\ run_queries ainvoke ag i (before ++ query :: after) w
              = (Ok tt, w2,
                 tb ++
                 [Stdout (PyStr.repeat "=" 80); Stdout "";
                  Stdout ("📝 Query " +:+ pretty (i + length before) +:+ ": "
                          +:+ query);
                  Stdout (PyStr.repeat "-" 80); Stdout "";
                  Stdout "🤖 Agent processing query...";
                  Ainvoke ag (turn_input query) turn_config;
                  Stdout ("❌ Error: " +:+ msg);
                  Traceback (Exc cls msg);
                  Stdout ""]
                 ++ t_after).
Proof.
  destruct (run_queries_total ag before i w) as (wb & tb & Hbefore & _).
  exists wb, tb. split; [exact Hbefore|].
  intros cls msg w1 Hturn.
  destruct (run_queries_total ag after (S (i + length before)) w1)
    as (w2 & t_after & Hafter & Hnet).
  exists w2, t_after. split; [exact Hafter|]. split; [exact Hnet|].
  rewrite (run_queries_app ag before (query :: after) i w wb tb Hbefore).
  simpl.
  rewrite (bind_returns _ _ _ _ _ _
             (run_query_raises ag (i + length before) query wb w1 cls msg Hturn)).
  rewrite Hafter. reflexivity.
Qed.

(** C8.  In a run that gets as far as the queries, exactly one query is
    submitted to the agent: the command-line arguments joined with single
    spaces when there is at least one, and the built-in example query when
    there is none. *)
Theorem command_line_is_the_single_query
        (env : environ) (prog : string) (args : list string)
        (w w1 : World) (tools : list tool) (h : llm) :
  truthy (mcp_api_key env) = true ->
  get_tools (mcp_client env) w = (Returns tools, w1) ->
  create_llm env (llm_provider env) = Ok h ->
  model_calls (snd (script get_tools ainvoke env (prog :: args) w))
  = [Ainvoke (create_agent h tools system_prompt)
       (turn_input match args with
                   | [] => example_query
                   | _ :: _ => PyStr.join " " args
                   end)
       turn_config].
Proof.
  intros Hkey Hget Hllm.
  rewrite <- model_calls_network_calls.
  rewrite (script_network_calls env (prog :: args) w Hkey), Hget, Hllm.
  destruct args as [|a args]; reflexivity.
Qed.

(** C9.  With [LLM_PROVIDER] absent the selected provider is "openai",
    the first of the supported identities, and [create_llm] takes its
    OpenAI branch: it returns a [ChatOpenAI] handle, or fails on
    [OPENAI_API_KEY]; in a run that reaches the queries, the agent is built
    around that [ChatOpenAI] handle. *)
Theorem default_provider_is_openai (env : environ) :
  env !! "LLM_PROVIDER" = None ->
  llm_provider env = "openai"
  /\ head supported_providers = Some (llm_provider env)
  /\ create_llm env (llm_provider env)
     = (if truthy (env !! "OPENAI_API_KEY")
        then Ok (ChatOpenAI (getenv_default env "OPENAI_MODEL" "gpt-4o-mini")
                            0 (default "" (env !! "OPENAI_API_KEY")))
        else Raise (ValueError "OPENAI_API_KEY environment variable is required"))
  /\ forall argv w w1 tools,
       truthy (mcp_api_key env) = true ->
       get_tools (mcp_client env) w = (Returns tools, w1) ->
       truthy (env !! "OPENAI_API_KEY") = true ->
       exists query,
         model_calls (snd (script get_tools ainvoke env argv w))
         = [Ainvoke
              (create_agent
                 (ChatOpenAI (getenv_default env "OPENAI_MODEL" "gpt-4o-mini")
                             0 (default "" (env !! "OPENAI_API_KEY")))
                 tools system_prompt)
              (turn_input query) turn_config].
Proof.
  intros Hsel.
  assert (Hprov : llm_provider env = "openai")
    by (unfold llm_provider, getenv_default; rewrite Hsel; reflexivity).
  assert (Hllm : create_llm env "openai"
                 = if truthy (env !! "OPENAI_API_KEY")
                   then Ok (ChatOpenAI
                              (getenv_default env "OPENAI_MODEL" "gpt-4o-mini")
                              0 (default "" (env !! "OPENAI_API_KEY")))
                   else Raise (ValueError
                                 "OPENAI_API_KEY environment variable is required")).
  { unfold create_llm. simpl.
    destruct (truthy (env !! "OPENAI_API_KEY")); reflexivity. }
  rewrite Hprov. split; [reflexivity|]. split; [reflexivity|].
  split; [exact Hllm|].
  intros argv w w1 tools Hkey Hget Hopenai.
  rewrite Hopenai in Hllm. eexists.
  rewrite <- model_calls_network_calls.
  rewrite (script_network_calls env argv w Hkey), Hget, Hprov, Hllm.
  reflexivity.
Qed.


End DriverFacts.

(** ** The claims on concrete runs *)

Example join_with_single_spaces : PyStr.join " " ["find"; "X"; "now"] = "find X now".
Proof. reflexivity. Qed.

Example create_llm_openai :
  create_llm Doubles.env_openai "openai" = Ok Doubles.openai_handle.
Proof. vm_compute. reflexivity. Qed.

(** C3 as stated gives exit status 0 to every run that has the access
    credential.  With [PIA_API_KEY] set and [OPENAI_API_KEY] missing, the
    [ValueError] of [create_llm] leaves [main] uncaught and the status is 1;
    so it is when the tool server cannot be reached. *)
Lemma exit_one_with_access_credential :
  truthy (mcp_api_key Doubles.env_pia_only) = true
  /\ fst (script Doubles.one_tool Doubles.echo_agent
            Doubles.env_pia_only [Doubles.script_name] 0%nat) = 1%Z
  /\ truthy (mcp_api_key Doubles.env_openai) = true
  /\ fst (script Doubles.unreachable Doubles.echo_agent
            Doubles.env_openai [Doubles.script_name] 0%nat) = 1%Z.
Proof. vm_compute. repeat split; reflexivity. Qed.

(** C4 as stated has every configuration failure reported before any
    network-bound call.  With [PIA_API_KEY] set and [OPENAI_API_KEY] missing,
    the run calls the tool server first and only then fails on the missing
    provider credential. *)
Lemma discovery_precedes_provider_validation :
  create_llm Doubles.env_pia_only (llm_provider Doubles.env_pia_only)
  = Raise (ValueError "OPENAI_API_KEY environment variable is required")
  /\ exists before,
       script Doubles.one_tool Doubles.echo_agent
         Doubles.env_pia_only [Doubles.script_name] 0%nat
       = (1%Z,
          before ++
          [Traceback (ValueError "OPENAI_API_KEY environment variable is required")])
       /\ network_calls before = [GetTools (mcp_client Doubles.env_pia_only)]
       /\ network_calls before <> [].
Proof.
  split; [vm_compute; reflexivity|].
  eexists (_ :: _ :: _ :: _ :: _ :: _ :: _ :: _ :: _ :: _ :: _ :: _ :: [_]).
  split; [vm_compute; reflexivity|].
  split; [vm_compute; reflexivity|].
  vm_compute. discriminate.
Qed.

Lemma configuration_failures_and_network_witness :
  (truthy (mcp_api_key ∅) = false
   /\ fst (script Doubles.one_tool Doubles.echo_agent ∅ [Doubles.script_name] 0%nat)
      = 1%Z
   /\ network_calls
        (snd (script Doubles.one_tool Doubles.echo_agent ∅ [Doubles.script_name] 0%nat))
      = [])
  /\ (truthy (mcp_api_key Doubles.env_pia_only) = true
      /\ Doubles.one_tool (mcp_client Doubles.env_pia_only) 0%nat
         = (Returns [Doubles.search_tool], 0%nat)
      /\ create_llm Doubles.env_pia_only (llm_provider Doubles.env_pia_only)
         = Raise (ValueError "OPENAI_API_KEY environment variable is required")
      /\ network_calls
           (snd (script Doubles.one_tool Doubles.echo_agent
                   Doubles.env_pia_only [Doubles.script_name] 0%nat))
         = [GetTools (mcp_client Doubles.env_pia_only)]).
Proof.
  assert (Hno : truthy (mcp_api_key ∅) = false) by (vm_compute; reflexivity).
  assert (Hkey : truthy (mcp_api_key Doubles.env_pia_only) = true)
    by (vm_compute; reflexivity).
  assert (Hget : Doubles.one_tool (mcp_client Doubles.env_pia_only) 0%nat
                 = (Returns [Doubles.search_tool], 0%nat)) by reflexivity.
  assert (Hllm : create_llm Doubles.env_pia_only (llm_provider Doubles.env_pia_only)
                 = Raise (ValueError "OPENAI_API_KEY environment variable is required"))
    by (vm_compute; reflexivity).
  destruct (configuration_failures_and_network Doubles.one_tool Doubles.echo_agent
              ∅ [Doubles.script_name] 0%nat) as [Hmissing _].
  destruct (configuration_failures_and_network Doubles.one_tool Doubles.echo_agent
              Doubles.env_pia_only [Doubles.script_name] 0%nat) as [_ Hpresent].
  split.
  - split; [exact Hno|]. destruct (Hmissing Hno) as (Hcode & Hnet & _).
    split; [exact Hcode | exact Hnet].
  - split; [exact Hkey|]. split; [exact Hget|]. split; [exact Hllm|].
    destruct (Hpresent Hkey) as (rest & Hnet & Hfail).
    destruct (Hfail _ _ _ Hget Hllm) as (_ & Hrest & _).
    rewrite Hnet, Hrest. reflexivity.
Defined.

(** C6 as stated makes the tool-endpoint URL a required setting without
    which no tool endpoint is used.  With [PIA_MCP_URL] absent the run
    discovers tools at the default URL. *)
Lemma absent_url_still_discovers_tools :
  Doubles.env_openai !! "PIA_MCP_URL" = None
  /\ exists rest,
       network_calls
         (snd (script Doubles.one_tool Doubles.echo_agent
                 Doubles.env_openai [Doubles.script_name] 0%nat))
       = GetTools {| server := "pia";
                     transport := "streamable_http";
                     url := "https://mcp.programintegrity.org";
                     headers := [("x-api-key", "pia-key")] |} :: rest.
Proof.
  split; [vm_compute; reflexivity|].
  eexists. vm_compute. reflexivity.
Qed.

Lemma endpoint_url_defaults_witness :
  Doubles.env_openai !! "PIA_MCP_URL" = None
  /\ truthy (mcp_api_key Doubles.env_openai) = true
  /\ mcp_url Doubles.env_openai = default_mcp_url.
Proof.
  assert (Hurl : Doubles.env_openai !! "PIA_MCP_URL" = None)
    by (vm_compute; reflexivity).
  assert (Hkey : truthy (mcp_api_key Doubles.env_openai) = true)
    by (vm_compute; reflexivity).
  split; [exact Hurl|]. split; [exact Hkey|].
  exact (proj1 (endpoint_url_defaults Doubles.one_tool Doubles.echo_agent
                  Doubles.env_openai [Doubles.script_name] 0%nat Hurl Hkey)).
Defined.

Lemma failed_query_does_not_stop_the_rest_witness :
  Doubles.fragile_agent Doubles.demo_agent (turn_input "bad") turn_config 1%nat
  = (Raises "RuntimeError" "boom", 2%nat)
  /\ exists w2 t,
       run_queries Doubles.fragile_agent Doubles.demo_agent 1
         (["first"] ++ "bad" :: ["next"; "last"]) 0%nat
       = (Ok tt, w2, t)
       /\ Stdout "❌ Error: boom" ∈ t
       /\ network_calls t
          = (fun q => Ainvoke Doubles.demo_agent (turn_input q) turn_config)
              <$> ["first"; "bad"; "next"; "last"].
Proof.
  assert (Hturn : Doubles.fragile_agent Doubles.demo_agent (turn_input "bad")
                    turn_config 1%nat
                  = (Raises "RuntimeError" "boom", 2%nat)) by reflexivity.
  split; [exact Hturn|].
  destruct (failed_query_does_not_stop_the_rest Doubles.fragile_agent
              Doubles.demo_agent 1 ["first"] "bad" ["next"; "last"] 0%nat)
    as (wb & tb & Hbefore & Hrest).
  assert (Hwb : wb = 1%nat).
  { vm_compute in Hbefore. injection Hbefore as Hw _. symmetry. exact Hw. }
  subst wb.
  destruct (Hrest _ _ _ Hturn) as (w2 & t_after & _ & Hnet & Hrun).
  eexists _, _. split; [exact Hrun|]. split.
  - apply list_elem_of_In, in_or_app. right. apply in_or_app. left.
    simpl. tauto.
  - assert (Htb : network_calls tb
                  = [Ainvoke Doubles.demo_agent (turn_input "first") turn_config]).
    { vm_compute in Hbefore. injection Hbefore as <-. reflexivity. }
    unfold network_calls in *. rewrite !List.filter_app, Htb, Hnet. reflexivity.
Defined.

Lemma command_line_is_the_single_query_witness :
  truthy (mcp_api_key Doubles.env_openai) = true
  /\ Doubles.one_tool (mcp_client Doubles.env_openai) 0%nat
     = (Returns [Doubles.search_tool], 0%nat)
  /\ create_llm Doubles.env_openai (llm_provider Doubles.env_openai)
     = Ok Doubles.openai_handle
  /\ model_calls
       (snd (script Doubles.one_tool Doubles.echo_agent Doubles.env_openai
               [Doubles.script_name; "find"; "X"] 0%nat))
     = [Ainvoke Doubles.demo_agent (turn_input "find X") turn_config].
Proof.
  assert (Hkey : truthy (mcp_api_key Doubles.env_openai) = true)
    by (vm_compute; reflexivity).
  assert (Hget : Doubles.one_tool (mcp_client Doubles.env_openai) 0%nat
                 = (Returns [Doubles.search_tool], 0%nat)) by reflexivity.
  assert (Hllm : create_llm Doubles.env_openai (llm_provider Doubles.env_openai)
                 = Ok Doubles.openai_handle) by (vm_compute; reflexivity).
  split; [exact Hkey|]. split; [exact Hget|]. split; [exact Hllm|].
  exact (command_line_is_the_single_query Doubles.one_tool Doubles.echo_agent
           Doubles.env_openai Doubles.script_name ["find"; "X"] 0%nat 0%nat
           [Doubles.search_tool] Doubles.openai_handle Hkey Hget Hllm).
Defined.

Lemma default_provider_is_openai_witness :
  Doubles.env_openai !! "LLM_PROVIDER" = None
  /\ llm_provider Doubles.env_openai = "openai"
  /\ create_llm Doubles.env_openai (llm_provider Doubles.env_openai)
     = Ok Doubles.openai_handle.
Proof.
  assert (Hsel : Doubles.env_openai !! "LLM_PROVIDER" = None)
    by (vm_compute; reflexivity).
  destruct (default_provider_is_openai Doubles.one_tool Doubles.echo_agent
              Doubles.env_openai Hsel) as (Hprov & _ & Hllm & _).
  split; [exact Hsel|]. split; [exact Hprov|].
  rewrite Hllm. vm_compute. reflexivity.
Defined.


(** * Further properties of the code *)

(** ** [create_llm] *)

(** X1.  What [create_llm] does is settled by the variables of the branch
    it takes: two environments that agree on them lead to the same
    constructor call (the same SDK class with the same keyword arguments) or
    to the same error.  The credentials of the other providers are not
    looked at, and an unsupported provider string fails whatever the
    environment.  This is about what the script reads and passes on; what an
    SDK constructor reads on its own account is not part of it. *)
Theorem create_llm_call_settled_by_its_variables
        (env env' : environ) (provider : string) :
  (forall k, k ∈ provider_variables provider -> env !! k = env' !! k) ->
  create_llm env provider = create_llm env' provider.
Proof.
  intros Hagree. unfold create_llm, provider_variables, getenv_default in *.
  repeat case_decide.
  - rewrite (Hagree "OPENAI_API_KEY"), (Hagree "OPENAI_MODEL");
      [reflexivity | | ]; rewrite !elem_of_cons; auto.
  - rewrite (Hagree "AZURE_OPENAI_API_KEY"), (Hagree "AZURE_OPENAI_ENDPOINT"),
      (Hagree "AZURE_OPENAI_DEPLOYMENT_NAME"), (Hagree "AZURE_OPENAI_API_VERSION");
      [reflexivity | | | | ]; rewrite !elem_of_cons; auto.
  - rewrite (Hagree "ANTHROPIC_API_KEY"), (Hagree "ANTHROPIC_MODEL");
      [reflexivity | | ]; rewrite !elem_of_cons; auto.
  - reflexivity.
Qed.

Lemma create_llm_call_settled_by_its_variables_witness :
  (forall k, k ∈ provider_variables "openai" ->
             Doubles.env_openai !! k = Doubles.env_unknown_provider !! k)
  /\ create_llm Doubles.env_openai "openai"
     = create_llm Doubles.env_unknown_provider "openai".
Proof.
  assert (Hagree : forall k, k ∈ provider_variables "openai" ->
                     Doubles.env_openai !! k = Doubles.env_unknown_provider !! k).
  { intros k. unfold provider_variables. simpl.
    rewrite !elem_of_cons, elem_of_nil.
    intros [-> | [-> | []]]; vm_compute; reflexivity. }
  split; [exact Hagree|].
  exact (create_llm_call_settled_by_its_variables _ _ _ Hagree).
Defined.

(** X2.  [create_llm] returns a handle exactly when the provider is one of
    the three supported identities and each variable that identity requires
    is set to a non-empty value; in every other case it raises. *)
Theorem create_llm_succeeds_iff (env : environ) (provider : string) :
  (exists h, create_llm env provider = Ok h)
  <-> provider ∈ supported_providers
      /\ Forall (fun k => truthy (env !! k) = true) (required_credentials provider).
Proof.
  unfold supported_providers, required_credentials, create_llm.
  rewrite !elem_of_cons, elem_of_nil.
  repeat case_decide; subst; rewrite ?Forall_cons; simpl.
  - destruct (truthy (env !! "OPENAI_API_KEY")); simpl; split.
    + intros _. split; [auto|]. split; [reflexivity | constructor].
    + eauto.
    + intros [h Hh]. discriminate.
    + intros (_ & Hk & _). discriminate.
  - destruct (truthy (env !! "AZURE_OPENAI_API_KEY")),
             (truthy (env !! "AZURE_OPENAI_ENDPOINT")),
             (truthy (env !! "AZURE_OPENAI_DEPLOYMENT_NAME")); simpl; split;
      try (intros [h Hh]; discriminate);
      try (intros (_ & Ha & Hb & Hc & _); discriminate);
      eauto.
    intros _. split; [auto|]. repeat split. constructor.
  - destruct (truthy (env !! "ANTHROPIC_API_KEY")); simpl; split.
    + intros _. split; [auto|]. split; [reflexivity | constructor].
    + eauto.
    + intros [h Hh]. discriminate.
    + intros (_ & Hk & _). discriminate.
  - split.
    + intros [h Hh]. discriminate.
    + intros [[? | [? | [? | []]]] _]; contradiction.
Qed.

(** ** Strings *)


Lemma lower_is_lowercase (s : string) : PyStr.lower s = PyStr.lowercase s.
Proof.
  induction s as [|c s IH]; [reflexivity|].
  simpl. rewrite lower_char_small_of, IH. reflexivity.
Qed.


Lemma string_app_assoc (a b c : string) : (a +:+ b) +:+ c = a +:+ b +:+ c.
Proof.
  induction a as [|x a IH]; [reflexivity|].
  change (String x ((a +:+ b) +:+ c) = String x (a +:+ b +:+ c)).
  f_equal. exact IH.
Qed.

(** X4.  Joining is by single separators between the parts and nothing
    around them: a list of parts split anywhere into two non-empty halves
    joins to the two joined halves with one separator between them. *)
Theorem join_app (sep : string) (parts1 parts2 : list string) :
  parts1 <> [] -> parts2 <> [] ->
  PyStr.join sep (parts1 ++ parts2)
  = PyStr.join sep parts1 +:+ sep +:+ PyStr.join sep parts2.
Proof.
  intros H1 H2. induction parts1 as [|p [|q rest] IH]; [contradiction | |].
  - destruct parts2 as [|r parts2]; [contradiction | reflexivity].
  - change (p +:+ sep +:+ PyStr.join sep ((q :: rest) ++ parts2)
            = (p +:+ sep +:+ PyStr.join sep (q :: rest))
                +:+ sep +:+ PyStr.join sep parts2).
    rewrite IH by discriminate.
    rewrite !string_app_assoc. reflexivity.
Qed.

Lemma join_app_witness :
  ["find"; "fraud"] <> [] /\ ["in"; "GAO"; "reports"] <> []
  /\ PyStr.join " " (["find"; "fraud"] ++ ["in"; "GAO"; "reports"])
     = "find fraud in GAO reports".
Proof.
  assert (H1 : ["find"; "fraud"] <> ([] : list string)) by discriminate.
  assert (H2 : ["in"; "GAO"; "reports"] <> ([] : list string)) by discriminate.
  split; [exact H1|]. split; [exact H2|].
  rewrite (join_app " " _ _ H1 H2). reflexivity.
Defined.

(** ** The driver *)

Section MoreDriverFacts.

Context {World : Type}.
Context (get_tools : client -> World -> lib_result (list tool) * World).
Context (ainvoke : agent -> chat_input -> invoke_config -> World ->
                   lib_result response * World).

Lemma tracebacks_app (t1 t2 : list event) :
  tracebacks (t1 ++ t2) = tracebacks t1 ++ tracebacks t2.
Proof. apply omap_app. Qed.

Lemma tracebacks_stdout (lines : list string) :
  tracebacks (Stdout <$> lines) = [].
Proof. induction lines as [|l lines IH]; [reflexivity | exact IH]. Qed.

Lemma model_calls_stdout (lines : list string) :
  model_calls (Stdout <$> lines) = [].
Proof. induction lines as [|l lines IH]; [reflexivity | exact IH]. Qed.

Lemma model_calls_app (t1 t2 : list event) :
  model_calls (t1 ++ t2) = model_calls t1 ++ model_calls t2.
Proof. apply List.filter_app. Qed.

(** X5.  The loop asks the agent once per query, in order, and follows it:
    it always returns normally, the world it leaves is the world after the
    last turn (a failed turn is not rolled back), and the tracebacks it
    prints are exactly the exceptions the turns raised, in the order of the
    queries; a turn that returns prints none. *)
Theorem run_queries_follows_the_agent (ag : agent) (queries : list string) :
  forall (i : nat) (w : World),
  exists t,
    run_queries ainvoke ag i queries w
    = (Ok tt, snd (turn_outcomes ainvoke ag queries w), t)
    /\ tracebacks t = raised (fst (turn_outcomes ainvoke ag queries w))
    /\ model_calls t
       = (fun query => Ainvoke ag (turn_input query) turn_config) <$> queries.
Proof.
  induction queries as [|query rest IH]; intros i w.
  - exists []. repeat split; reflexivity.
  - simpl turn_outcomes.
    destruct (ainvoke ag (turn_input query) turn_config w)
      as [[resp|cls msg] w1] eqn:Hturn;
      destruct (IH (S i) w1) as (t2 & Hrest & Htb & Hcalls);
      destruct (turn_outcomes ainvoke ag rest w1) as [rs w2]; simpl in *.
    + destruct (run_query_returns ainvoke ag i query w w1 resp Hturn)
        as [lines Hq].
      eexists. split; [|split].
      * rewrite (bind_returns _ _ _ _ _ _ Hq), Hrest. reflexivity.
      * rewrite !tracebacks_app, tracebacks_stdout, Htb. reflexivity.
      * rewrite !model_calls_app, model_calls_stdout, Hcalls. reflexivity.
    + pose proof (run_query_raises ainvoke ag i query w w1 cls msg Hturn) as Hq.
      eexists. split; [|split].
      * rewrite (bind_returns _ _ _ _ _ _ Hq), Hrest. reflexivity.
      * rewrite tracebacks_app, Htb. reflexivity.
      * rewrite model_calls_app, Hcalls. reflexivity.
Qed.

(** X6.  A failure of tool discovery ends the run: the exit status is 1,
    the last thing the run shows is the traceback of the exception discovery
    raised, the discovery call is its only network-bound call, and no model
    is ever called, whatever the provider configuration is. *)
Theorem discovery_failure_is_fatal
        (env : environ) (argv : list string) (w w1 : World) (cls msg : string) :
  truthy (mcp_api_key env) = true ->
  get_tools (mcp_client env) w = (Raises cls msg, w1) ->
  fst (script get_tools ainvoke env argv w) = 1%Z
  /\ last (snd (script get_tools ainvoke env argv w)) = Some (Traceback (Exc cls msg))
  /\ network_calls (snd (script get_tools ainvoke env argv w))
     = [GetTools (mcp_client env)]
  /\ tracebacks (snd (script get_tools ainvoke env argv w)) = [Exc cls msg].
Proof.
  intros Hkey Hget.
  destruct (main_discovery_raises get_tools ainvoke env argv w w1 cls msg Hkey Hget)
    as (lines & Hmain).
  unfold script. rewrite Hmain. cbn [fst snd].
  split; [reflexivity|]. split; [apply last_snoc|]. split.
  - unfold network_calls. rewrite !List.filter_app.
    fold (network_calls (Stdout <$> lines)).
    rewrite network_calls_stdout. reflexivity.
  - rewrite !tracebacks_app, tracebacks_stdout. reflexivity.
Qed.

(** X7.  A provider selector written in ASCII characters that is not, put
    in small letters, one of the supported identities is rejected only after
    tool discovery has returned: the run exits with status 1, calls no model,
    and ends on the traceback of the unknown-provider [ValueError], whose
    message quotes the selector in small letters, not as it was written.  A
    selector set to the empty string is such a value: it does not fall back
    to the default provider. *)
Theorem unsupported_selector_fails_after_discovery
        (env : environ) (value : string) (argv : list string)
        (w w1 : World) (tools : list tool) :
  env !! "LLM_PROVIDER" = Some value ->
  PyStr.is_ascii value = true ->
  PyStr.lowercase value ∉ supported_providers ->
  truthy (mcp_api_key env) = true ->
  get_tools (mcp_client env) w = (Returns tools, w1) ->
  fst (script get_tools ainvoke env argv w) = 1%Z
  /\ last (snd (script get_tools ainvoke env argv w))
     = Some (Traceback
               (ValueError ("Unknown provider: " +:+ PyStr.lowercase value +:+
                            ". Use 'openai', 'azure', or 'claude'")))
  /\ network_calls (snd (script get_tools ainvoke env argv w))
     = [GetTools (mcp_client env)].
Proof.
  intros Hval _ Hnot Hkey Hget.
  assert (Hprov : llm_provider env = PyStr.lowercase value).
  { unfold llm_provider, getenv_default. rewrite Hval. apply lower_is_lowercase. }
  assert (Hllm : create_llm env (llm_provider env)
                 = Raise (ValueError
                            (unknown_provider_message (PyStr.lowercase value))))
    by (rewrite Hprov; apply create_llm_unsupported, Hnot).
  pose proof (script_network_calls get_tools ainvoke env argv w Hkey) as Hnet.
  rewrite Hget, Hllm in Hnet.
  destruct (script_create_llm_raises get_tools ainvoke env argv w w1 tools _
              Hkey Hget Hllm) as (l1 & l2 & Hscript).
  split; [rewrite Hscript; reflexivity|].
  split; [rewrite Hscript; apply last_snoc | exact Hnet].
Qed.


(** X8.  Tool discovery goes to the configured endpoint with the access
    credential: the first network-bound call of a run is the discovery call
    of a client with the single server "pia", the streamable-HTTP transport,
    the URL of [PIA_MCP_URL] as it is set (an empty value included) and the
    value of [PIA_API_KEY] in the "x-api-key" header. *)
Theorem discovery_uses_configured_endpoint
        (env : environ) (argv : list string) (w : World) (u k : string) :
  env !! "PIA_MCP_URL" = Some u ->
  env !! "PIA_API_KEY" = Some k ->
  k <> "" ->
  exists rest,
    network_calls (snd (script get_tools ainvoke env argv w))
    = GetTools {| server := "pia";
                  transport := "streamable_http";
                  url := u;
                  headers := [("x-api-key", k)] |} :: rest.
Proof.
  intros Hurl Hk Hne.
  assert (Hkey : truthy (mcp_api_key env) = true).
  { unfold mcp_api_key. rewrite Hk. simpl.
    destruct (String.eqb_spec k ""); [contradiction | reflexivity]. }
  eexists. rewrite (script_network_calls get_tools ainvoke env argv w Hkey).
  unfold mcp_client, mcp_url, mcp_api_key, getenv_default, MultiServerMCPClient.
  rewrite Hurl, Hk. reflexivity.
Qed.

(** X9.  Displaying a response only prints: it raises nothing and leaves
    the world alone.  It starts with an empty line, and what it ends on is
    the answer: the content of the last message (its string form when it has
    no content attribute), the "(no messages)" notice when the message list
    is empty, and the string form of the whole response when there is no
    "messages" key. *)
Theorem show_response_ends_on_the_answer (resp : response) (w : World) :
  exists lines,
    show_response resp w = (Ok tt, w, Stdout <$> lines)
    /\ head lines = Some ""
    /\ last lines
       = Some match resp_messages resp with
              | Some messages =>
                  match last messages with
                  | Some last_message =>
                      default (msg_str last_message) (msg_content last_message)
                  | None => "💬 Agent Response: (no messages)"
                  end
              | None => resp_str resp
              end.
Proof.
  unfold show_response. rewrite bind_print.
  destruct (resp_messages resp) as [messages|].
  - rewrite bind_print.
    destruct (for_each_show_tool_calls messages w) as [shown Hshown].
    rewrite (bind_returns _ _ _ _ _ _ Hshown).
    destruct (last messages) as [last_message|].
    + exists ("" :: ("📊 Agent executed " +:+ pretty (length messages) +:+ " steps")
                :: shown ++ [""; "💬 Agent Response:";
                             default (msg_str last_message)
                                     (msg_content last_message)]).
      split; [rewrite !fmap_cons, fmap_app; reflexivity|].
      split; [reflexivity|].
      rewrite !last_cons.
      rewrite (last_app_cons shown). reflexivity.
    + exists ("" :: ("📊 Agent executed " +:+ pretty (length messages) +:+ " steps")
                :: shown ++ ["💬 Agent Response: (no messages)"]).
      split; [rewrite !fmap_cons, fmap_app; reflexivity|].
      split; [reflexivity|].
      rewrite !last_cons, last_snoc. reflexivity.
  - exists [""; "💬 Agent Response:"; resp_str resp].
    repeat split; reflexivity.
Qed.

(** X10.  Once discovery has returned, the run lists what it found: a
    count line with the number of tools, then one line per tool with its
    name, in the order discovery gave them.  The listing comes after the
    discovery call and whether or not the provider configuration is valid. *)
Theorem discovered_tools_are_listed
        (env : environ) (argv : list string) (w w1 : World) (tools : list tool) :
  truthy (mcp_api_key env) = true ->
  get_tools (mcp_client env) w = (Returns tools, w1) ->
  exists before after,
    snd (script get_tools ainvoke env argv w)
    = before
      ++ Stdout ("✅ Retrieved " +:+ pretty (length tools) +:+ " tools:")
      :: (Stdout <$> ((fun tool => "   - " +:+ tool_name tool) <$> tools))
      ++ after
    /\ network_calls before = [GetTools (mcp_client env)].
Proof.
  intros Hkey Hget. unfold mcp_client in Hget.
  eexists [_; _; _; _; _; _; _; _; GetTools (mcp_client env)].
  unfold script, main. rewrite Hkey. simpl.
  rewrite bind_ret, !bind_print.
  unfold bind at 1. unfold call. rewrite Hget. simpl.
  rewrite bind_print.
  rewrite (bind_returns _ _ _ _ _ _ (for_each_print _ tools w1)).
  destruct (bind (print "") _ w1) as [[r w2] t2].
  destruct r as [[]|[cls msg|code]]; simpl; eexists;
    (split; [first [reflexivity | rewrite <- app_assoc; reflexivity]
            | reflexivity]).
Qed.

(** X11.  The exit status is 0 or 1, and the line "Example complete!" tells
    them apart: a run that exits 0 ends on the six closing lines, of which it
    is the first, and a run that exits 1 never prints it. *)
Theorem completion_line_means_success
        (env : environ) (argv : list string) (w : World) :
  (fst (script get_tools ainvoke env argv w) = 0%Z
   /\ [Stdout "✅ Example complete!"; Stdout ""; Stdout "💡 Tips:";
       Stdout "   - Pass your own query as a command-line argument";
       Stdout "   - Modify the script to build more complex agent workflows";
       Stdout "   - Check the README.md for more information"]
      `suffix_of` snd (script get_tools ainvoke env argv w))
  \/ (fst (script get_tools ainvoke env argv w) = 1%Z
      /\ Stdout "✅ Example complete!" ∉ snd (script get_tools ainvoke env argv w)).
Proof.
  destruct (truthy (mcp_api_key env)) eqn:Hkey.
  2:{ right. rewrite (script_without_key get_tools ainvoke env argv w Hkey).
      split; [reflexivity|]. cbn [snd].
      rewrite !not_elem_of_cons. repeat split; try discriminate.
      apply not_elem_of_nil. }
  destruct (get_tools (mcp_client env) w) as [[tools|cls msg] w1] eqn:Hget;
    unfold mcp_client in Hget.
  2:{ right.
      assert (Hrun : exists t,
                 script get_tools ainvoke env argv w = (1%Z, t)
                 /\ Stdout "✅ Example complete!" ∉ t).
      { eexists. split.
        - unfold script, main. rewrite Hkey. simpl.
          rewrite bind_ret, !bind_print.
          unfold bind at 1. unfold call. rewrite Hget. simpl. reflexivity.
        - rewrite !not_elem_of_cons. repeat split; try discriminate.
          apply not_elem_of_nil. }
      destruct Hrun as (t & -> & Hnot). split; [reflexivity | exact Hnot]. }
  destruct (create_llm env (llm_provider env)) as [h|e] eqn:Hllm.
  - left.
    destruct (select_queries_spec argv w1) as [sel Hsel].
    destruct (run_queries_total ainvoke (create_agent h tools system_prompt)
                [if (1 <? length argv)%nat
                 then PyStr.join " " (drop 1 argv) else example_query] 1 w1)
      as (w2 & t & Hrun & _).
    assert (Hs : exists t,
               script get_tools ainvoke env argv w = (0%Z, t)
               /\ [Stdout "✅ Example complete!"; Stdout ""; Stdout "💡 Tips:";
                   Stdout "   - Pass your own query as a command-line argument";
                   Stdout "   - Modify the script to build more complex agent workflows";
                   Stdout "   - Check the README.md for more information"]
                  `suffix_of` t).
    { eexists. split.
      - unfold script, main. rewrite Hkey. simpl.
        rewrite bind_ret, !bind_print.
        unfold bind at 1. unfold call. rewrite Hget. simpl.
        rewrite bind_print.
        rewrite (bind_returns _ _ _ _ _ _ (for_each_print _ tools w1)).
        rewrite !bind_print.
        unfold bind at 1. unfold lift. rewrite Hllm. simpl.
        rewrite !bind_print.
        rewrite (bind_returns _ _ _ _ _ _ Hsel).
        rewrite (bind_returns _ _ _ _ _ _ Hrun).
        rewrite !bind_print. simpl. reflexivity.
      - repeat first [ solve [exists []; reflexivity]
                     | apply suffix_cons_r | apply suffix_app_r ]. }
    destruct Hs as (t' & -> & Hsuffix). split; [reflexivity | exact Hsuffix].
  - right. pose proof (create_llm_raises_ValueError _ _ _ Hllm) as Hcls.
    destruct e as [cls msg|code]; [|discriminate Hcls].
    assert (Hs : exists t,
               script get_tools ainvoke env argv w = (1%Z, t)
               /\ Stdout "✅ Example complete!" ∉ t).
    { eexists. split.
      - unfold script, main. rewrite Hkey. simpl.
        rewrite bind_ret, !bind_print.
        unfold bind at 1. unfold call. rewrite Hget. simpl.
        rewrite bind_print.
        rewrite (bind_returns _ _ _ _ _ _ (for_each_print _ tools w1)).
        rewrite !bind_print.
        unfold bind at 1. unfold lift. rewrite Hllm. simpl. reflexivity.
      - simpl.
        rewrite !not_elem_of_cons, !not_elem_of_app, !not_elem_of_cons.
        repeat split; try discriminate; try apply not_elem_of_nil.
        intros Hin. apply list_elem_of_fmap in Hin as (line & Heq & Hin).
        apply list_elem_of_fmap in Hin as (tool & -> & _).
        discriminate. }
    destruct Hs as (t & -> & Hnot). split; [reflexivity | exact Hnot].
Qed.

Lemma run_query_announces (ag : agent) (i : nat) (query : string) (w : World) :
  exists w1 t,
    run_query ainvoke ag i query w = (Ok tt, w1, t)
    /\ Stdout ("📝 Query " +:+ pretty i +:+ ": " +:+ query) ∈ t.
Proof.
  destruct (ainvoke ag (turn_input query) turn_config w)
    as [[resp|cls msg] w1] eqn:Hturn.
  - destruct (run_query_returns ainvoke ag i query w w1 resp Hturn) as [lines Hq].
    eexists _, _. split; [exact Hq|].
    apply elem_of_app. left. rewrite !elem_of_cons. auto.
  - eexists _, _.
    split; [exact (run_query_raises ainvoke ag i query w w1 cls msg Hturn)|].
    rewrite !elem_of_cons. auto.
Qed.

(** X12.  The queries are numbered from the starting index in steps of
    one: the query at position [k] of the list is announced, with its text,
    as query number [i + k], whether the earlier ones succeeded or failed. *)
Theorem queries_are_numbered (ag : agent) (queries : list string) :
  forall (i : nat) (w : World) (k : nat) (query : string),
  queries !! k = Some query ->
  Stdout ("📝 Query " +:+ pretty (i + k) +:+ ": " +:+ query)
    ∈ snd (run_queries ainvoke ag i queries w).
Proof.
  induction queries as [|q rest IH]; intros i w k query Hk; [discriminate|].
  destruct (run_query_announces ag i q w) as (w1 & t1 & Hq & Hin).
  simpl. rewrite (bind_returns _ _ _ _ _ _ Hq).
  destruct (run_queries ainvoke ag (S i) rest w1) as [[r w2] t2] eqn:Hrest.
  cbn [snd]. apply elem_of_app.
  destruct k as [|k].
  - left. injection Hk as <-. rewrite Nat.add_0_r. exact Hin.
  - right. specialize (IH (S i) w1 k query Hk).
    rewrite Hrest in IH. replace (i + S k) with (S i + k) by lia. exact IH.
Qed.

End MoreDriverFacts.

(** ** The further properties on concrete runs *)

Lemma discovery_failure_is_fatal_witness :
  truthy (mcp_api_key Doubles.env_pia_only) = true
  /\ Doubles.unreachable (mcp_client Doubles.env_pia_only) 0%nat
     = (Raises "ConnectionError" "All connection attempts failed", 0%nat)
  /\ fst (script Doubles.unreachable Doubles.echo_agent
            Doubles.env_pia_only [Doubles.script_name] 0%nat) = 1%Z
  /\ tracebacks (snd (script Doubles.unreachable Doubles.echo_agent
                        Doubles.env_pia_only [Doubles.script_name] 0%nat))
     = [Exc "ConnectionError" "All connection attempts failed"].
Proof.
  assert (Hkey : truthy (mcp_api_key Doubles.env_pia_only) = true)
    by (vm_compute; reflexivity).
  assert (Hget : Doubles.unreachable (mcp_client Doubles.env_pia_only) 0%nat
                 = (Raises "ConnectionError" "All connection attempts failed", 0%nat))
    by reflexivity.
  destruct (discovery_failure_is_fatal Doubles.unreachable Doubles.echo_agent
              Doubles.env_pia_only [Doubles.script_name] 0%nat 0%nat _ _ Hkey Hget)
    as (Hcode & _ & _ & Htb).
  split; [exact Hkey|]. split; [exact Hget|]. split; [exact Hcode | exact Htb].
Defined.

Lemma unsupported_selector_fails_after_discovery_witness :
  Doubles.env_unknown_provider !! "LLM_PROVIDER" = Some "Gemini"
  /\ PyStr.is_ascii "Gemini" = true
  /\ (PyStr.lowercase "Gemini" ∉ supported_providers)
  /\ truthy (mcp_api_key Doubles.env_unknown_provider) = true
  /\ Doubles.one_tool (mcp_client Doubles.env_unknown_provider) 0%nat
     = (Returns [Doubles.search_tool], 0%nat)
  /\ last (snd (script Doubles.one_tool Doubles.echo_agent
                  Doubles.env_unknown_provider [Doubles.script_name] 0%nat))
     = Some (Traceback
               (ValueError
                  "Unknown provider: gemini. Use 'openai', 'azure', or 'claude'")).
Proof.
  assert (Hval : Doubles.env_unknown_provider !! "LLM_PROVIDER" = Some "Gemini")
    by (vm_compute; reflexivity).
  assert (Hascii : PyStr.is_ascii "Gemini" = true) by reflexivity.
  assert (Hnot : PyStr.lowercase "Gemini" ∉ supported_providers).
  { unfold supported_providers. rewrite !not_elem_of_cons.
    repeat split; try discriminate. apply not_elem_of_nil. }
  assert (Hkey : truthy (mcp_api_key Doubles.env_unknown_provider) = true)
    by (vm_compute; reflexivity).
  assert (Hget : Doubles.one_tool (mcp_client Doubles.env_unknown_provider) 0%nat
                 = (Returns [Doubles.search_tool], 0%nat)) by reflexivity.
  destruct (unsupported_selector_fails_after_discovery
              Doubles.one_tool Doubles.echo_agent Doubles.env_unknown_provider
              "Gemini" [Doubles.script_name] 0%nat 0%nat [Doubles.search_tool]
              Hval Hascii Hnot Hkey Hget) as (_ & Hlast & _).
  split; [exact Hval|]. split; [exact Hascii|]. split; [exact Hnot|].
  split; [exact Hkey|]. split; [exact Hget | exact Hlast].
Defined.


Lemma discovery_uses_configured_endpoint_witness :
  Doubles.env_custom_url !! "PIA_MCP_URL" = Some "http://localhost:8000/mcp"
  /\ Doubles.env_custom_url !! "PIA_API_KEY" = Some "pia-key"
  /\ "pia-key" <> ""
  /\ exists rest,
       network_calls (snd (script Doubles.one_tool Doubles.echo_agent
                             Doubles.env_custom_url [Doubles.script_name] 0%nat))
       = GetTools {| server := "pia";
                     transport := "streamable_http";
                     url := "http://localhost:8000/mcp";
                     headers := [("x-api-key", "pia-key")] |} :: rest.
Proof.
  assert (Hurl : Doubles.env_custom_url !! "PIA_MCP_URL"
                 = Some "http://localhost:8000/mcp") by (vm_compute; reflexivity).
  assert (Hk : Doubles.env_custom_url !! "PIA_API_KEY" = Some "pia-key")
    by (vm_compute; reflexivity).
  assert (Hne : "pia-key" <> "") by discriminate.
  split; [exact Hurl|]. split; [exact Hk|]. split; [exact Hne|].
  exact (discovery_uses_configured_endpoint Doubles.one_tool Doubles.echo_agent
           Doubles.env_custom_url [Doubles.script_name] 0%nat _ _ Hurl Hk Hne).
Defined.

Lemma discovered_tools_are_listed_witness :
  truthy (mcp_api_key Doubles.env_openai) = true
  /\ Doubles.one_tool (mcp_client Doubles.env_openai) 0%nat
     = (Returns [Doubles.search_tool], 0%nat)
  /\ exists before after,
       snd (script Doubles.one_tool Doubles.echo_agent
              Doubles.env_openai [Doubles.script_name] 0%nat)
       = before ++ Stdout "✅ Retrieved 1 tools:" :: [Stdout "   - search"] ++ after.
Proof.
  assert (Hkey : truthy (mcp_api_key Doubles.env_openai) = true)
    by (vm_compute; reflexivity).
  assert (Hget : Doubles.one_tool (mcp_client Doubles.env_openai) 0%nat
                 = (Returns [Doubles.search_tool], 0%nat)) by reflexivity.
  split; [exact Hkey|]. split; [exact Hget|].
  destruct (discovered_tools_are_listed Doubles.one_tool Doubles.echo_agent
              Doubles.env_openai [Doubles.script_name] 0%nat 0%nat
              [Doubles.search_tool] Hkey Hget) as (before & after & Htrace & _).
  exists before, after. exact Htrace.
Defined.

Lemma queries_are_numbered_witness :
  ["first"; "bad"; "next"] !! 2%nat = Some "next"
  /\ Stdout "📝 Query 3: next"
       ∈ snd (run_queries Doubles.fragile_agent Doubles.demo_agent 1
                ["first"; "bad"; "next"] 0%nat).
Proof.
  assert (Hk : ["first"; "bad"; "next"] !! 2%nat = Some "next") by reflexivity.
  split; [exact Hk|].
  exact (queries_are_numbered Doubles.fragile_agent Doubles.demo_agent
           ["first"; "bad"; "next"] 1 0%nat 2 "next" Hk).
Defined.
